(** * Bike-sharing dashboard: the data pipeline of [streamlit_app.py]

    A shallow embedding of the loader, the date-column conversion, the
    date-range filter and the group-by-mean aggregations of
    [src/streamlit_app.py], together with the properties the specification
    states about them.

    Conventions.
    - A pandas DataFrame is the list of its rows, in index order.
    - Integer columns ([hr], [is_weekend], [weathersit], [cnt]) are [Z].
    - The [dteday] column is dynamically typed in the source: [read_csv]
      yields strings, [pd.to_datetime] replaces them by timestamps.  A cell
      is therefore a sum ([Str] or [Timestamp]); a timestamp is the number
      of nanoseconds since the epoch, a [datetime.date] is the number of
      days since the epoch.  Missing dates (NaT) are out of scope: the
      tables are pre-cleaned.
    - The mean of an integer column is the exact rational; pandas sums
      and divides in float64, which is not modelled.  The two agree up to
      the final rounding of the quotient as long as the sums stay within
      2^53, where float64 holds every integer exactly ([sums_exact]).
    - An empty date column has no cells to tell whether it was converted;
      it is taken to be converted, as it is wherever [main] filters.
    - [st.sidebar.date_input] is taken to return; on a table without rows
      its default is NaT and the real call raises.
    - Streamlit, logging and plotting calls are recorded as events of an
      output trace; a Python exception is a value of [exception].  What
      seaborn and matplotlib do with the data they are handed is outside
      the script and not modelled.
    - A data file that parses is taken to have the columns the script
      reads; the script itself never checks them.
    - One run of the script is modelled; [st.cache_data] only spares later
      runs the file reads. *)

From Stdlib Require Import ZArith List Ascii String Bool Lia QArith Sorted Permutation.
Import ListNotations.
Open Scope Z_scope.

(** ** Exceptions and fallible results *)

Inductive exception : Type :=
| FileNotFoundError                 (* read_csv on a path that does not exist *)
| OtherException (cause : string)   (* any other [Exception] raised by read_csv *)
| DateParseError (cell : string)    (* pd.to_datetime on a string it cannot parse *)
| AttributeError                    (* [.dt] on a column that is not datetime-like *)
| IndexError                        (* tuple index out of range *)
| IndexingError                     (* boolean mask that does not fit the frame *)
| TypeError                         (* subscripting [None] *)
| StopException.                    (* raised by [st.stop()] to end the script run *)

Inductive result (A : Type) : Type :=
| Ok (a : A)
| Raise (e : exception).
Arguments Ok {A} a.
Arguments Raise {A} e.

Definition rbind {A B : Type} (m : result A) (k : A -> result B) : result B :=
  match m with
  | Ok a => k a
  | Raise e => Raise e
  end.

Notation "'let?' x ':=' m 'in' k" := (rbind m (fun x => k))
  (at level 10, x name, m at level 100, k at level 200).

(** ** Data model *)

Inductive cell : Type :=
| Str (s : string)
| Timestamp (ns : Z).

Record HourlyRecord : Type := mkHourly {
  h_dteday : cell;
  hr : Z;
  is_weekend : Z;
  h_cnt : Z
}.

Record DailyRecord : Type := mkDaily {
  d_dteday : cell;
  temp : Q;
  weathersit : Z;
  d_cnt : Z
}.

(** The columns both tables share: ['dteday'] (read and assigned) and ['cnt']. *)
Class Frame (R : Type) : Type := {
  dteday : R -> cell;
  set_dteday : cell -> R -> R;
  cnt : R -> Z
}.

#[export] Instance HourlyFrame : Frame HourlyRecord := {
  dteday := h_dteday;
  set_dteday c r := mkHourly c (hr r) (is_weekend r) (h_cnt r);
  cnt := h_cnt
}.

#[export] Instance DailyFrame : Frame DailyRecord := {
  dteday := d_dteday;
  set_dteday c r := mkDaily c (temp r) (weathersit r) (d_cnt r);
  cnt := d_cnt
}.

(** ** Dates *)

Definition NS_PER_DAY : Z := 86400000000000.

(** [Timestamp.date()]: the calendar day of a timestamp, time of day dropped. *)
Definition date_of (ns : Z) : Z := ns / NS_PER_DAY.

(** [series.dt.date]: only a datetime column has the [.dt] accessor.  (An
    empty column counts as converted: see the conventions.) *)
Fixpoint dt_date (col : list cell) : result (list Z) :=
  match col with
  | [] => Ok []
  | Timestamp ns :: tl =>
      let? ds := dt_date tl in Ok (date_of ns :: ds)
  | Str _ :: _ => Raise AttributeError
  end.

(** A table whose date column holds dates (the state after lines 56-57). *)
Definition datetime_column {R : Type} `{Frame R} (df : list R) : Prop :=
  Forall (fun r => exists ns, dteday r = Timestamp ns) df.

Definition row_date {R : Type} `{Frame R} (r : R) : option Z :=
  match dteday r with
  | Timestamp ns => Some (date_of ns)
  | Str _ => None
  end.

(** ** Filter stage (lines 79-87) *)

(** [series >= x] and [series <= x], element by element. *)
Definition series_ge (s : list Z) (x : Z) : list bool := map (fun d => x <=? d) s.
Definition series_le (s : list Z) (x : Z) : list bool := map (fun d => d <=? x) s.

(** [a & b] on two boolean series over the same index. *)
Definition series_and (a b : list bool) : list bool :=
  map (fun p => fst p && snd p) (combine a b).

(** [df[mask]]: the rows whose mask entry is [True], in frame order. *)
Fixpoint getitem_mask {R : Type} (df : list R) (mask : list bool) : result (list R) :=
  match df, mask with
  | [], [] => Ok []
  | r :: df', b :: mask' =>
      let? out := getitem_mask df' mask' in
      Ok (if b then r :: out else out)
  | _, _ => Raise IndexingError
  end.

(** [t[i]] on the tuple a date picker returns. *)
Definition tuple_get (t : list Z) (i : nat) : result Z :=
  match nth_error t i with
  | Some d => Ok d
  | None => Raise IndexError
  end.

(** [df[(df['dteday'].dt.date >= date_filter[0]) &
        (df['dteday'].dt.date <= date_filter[1])]] *)
Definition filter_by_date {R : Type} `{Frame R}
    (df : list R) (date_filter : list Z) : result (list R) :=
  let? lhs := dt_date (map dteday df) in
  let? start := tuple_get date_filter 0 in
  let ge := series_ge lhs start in
  let? rhs := dt_date (map dteday df) in
  let? end_ := tuple_get date_filter 1 in
  let le := series_le rhs end_ in
  getitem_mask df (series_and ge le).

(** The rows of [df] dated within [start, end_], as the specification words it. *)
Definition in_range {R : Type} `{Frame R} (start end_ : Z) (r : R) : bool :=
  match row_date r with
  | Some d => (start <=? d) && (d <=? end_)
  | None => false
  end.

(** Order-preserving selection: [s] is obtained from [l] by dropping rows. *)
Inductive Subseq {A : Type} : list A -> list A -> Prop :=
| Subseq_nil : Subseq [] []
| Subseq_keep x s l : Subseq s l -> Subseq (x :: s) (x :: l)
| Subseq_drop x s l : Subseq s l -> Subseq s (x :: l).

(** ** Aggregation stage (lines 96 and 131) *)

(** Group keys are compared the way pandas sorts them ([groupby] has
    [sort=True] by default): integers by value, key tuples lexicographically. *)
Class Key (K : Type) : Type := {
  key_compare : K -> K -> comparison
}.

#[export] Instance ZKey : Key Z := {
  key_compare := Z.compare
}.

#[export] Instance PairKey : Key (Z * Z) := {
  key_compare a b :=
    match fst a ?= fst b with
    | Eq => snd a ?= snd b
    | c => c
    end
}.

Class KeyLaws (K : Type) `{Key K} : Prop := {
  key_compare_eq : forall a b, key_compare a b = Eq <-> a = b;
  key_compare_antisym : forall a b, key_compare b a = CompOpp (key_compare a b);
  key_compare_trans : forall a b c,
    key_compare a b = Lt -> key_compare b c = Lt -> key_compare a c = Lt
}.

Definition key_lt {K : Type} `{Key K} (a b : K) : Prop := key_compare a b = Lt.

(** One group of the running aggregation: its key, the sum of the counts seen
    so far and how many rows they came from. *)
Definition group (K : Type) : Type := (K * (Z * positive))%type.

(** Add one row's count to its group, keeping the groups ordered by key. *)
Fixpoint group_add {K : Type} `{Key K} (k : K) (c : Z) (groups : list (group K))
    : list (group K) :=
  match groups with
  | [] => [(k, (c, 1%positive))]
  | (k', (s, n)) :: tl =>
      match key_compare k k' with
      | Lt => (k, (c, 1%positive)) :: groups
      | Eq => (k', (s + c, Pos.succ n)) :: tl
      | Gt => (k', (s, n)) :: group_add k c tl
      end
  end.

Definition group_sums {K R : Type} `{Key K} `{Frame R} (by_ : R -> K) (df : list R)
    : list (group K) :=
  fold_left (fun groups r => group_add (by_ r) (cnt r) groups) df [].

Definition group_mean {K : Type} (g : group K) : K * Q :=
  (fst g, Qred (fst (snd g) # snd (snd g))).

(** [df.groupby(by)['cnt'].mean().reset_index()]: one output row per key
    present in [df], carrying the key and the mean of ['cnt'] over the
    group's rows. *)
Definition groupby_mean {K R : Type} `{Key K} `{Frame R} (by_ : R -> K) (df : list R)
    : list (K * Q) :=
  map group_mean (group_sums by_ df).

(** [filtered_hour_df.groupby(['hr', 'is_weekend'])['cnt'].mean().reset_index()] *)
Definition average_rentals_per_hour (filtered_hour_df : list HourlyRecord)
    : list ((Z * Z) * Q) :=
  groupby_mean (fun r => (hr r, is_weekend r)) filtered_hour_df.

(** [filtered_day_df.groupby('weathersit')['cnt'].mean().reset_index()] *)
Definition average_rentals_by_weather (filtered_day_df : list DailyRecord)
    : list (Z * Q) :=
  groupby_mean weathersit filtered_day_df.

Definition same_key {K : Type} `{Key K} (k k' : K) : bool :=
  match key_compare k k' with
  | Eq => true
  | _ => false
  end.

(** The rows of [df] whose key is [k]. *)
Definition rows_of {K R : Type} `{Key K} (by_ : R -> K) (k : K) (df : list R) : list R :=
  filter (fun r => same_key k (by_ r)) df.

Definition sum_cnt {R : Type} `{Frame R} (df : list R) : Z :=
  fold_right (fun r acc => cnt r + acc) 0 df.

(** The arithmetic mean of the counts of a non-empty table, as the
    specification words it. *)
Definition arithmetic_mean {R : Type} `{Frame R} (df : list R) : Q :=
  inject_Z (sum_cnt df) / inject_Z (Z.of_nat (List.length df)).

(** What the rows seen so far say about key [k]: nothing when none has it,
    else the sum of their counts and how many they are. *)
Definition tally {K R : Type} `{Key K} `{Frame R} (by_ : R -> K) (k : K) (seen : list R)
    : option (Z * positive) :=
  match rows_of by_ k seen with
  | [] => None
  | rows => Some (sum_cnt rows, Pos.of_nat (List.length rows))
  end.

Fixpoint group_lookup {K : Type} `{Key K} (k : K) (groups : list (group K))
    : option (Z * positive) :=
  match groups with
  | [] => None
  | (k', v) :: tl => if same_key k k' then Some v else group_lookup k tl
  end.

Definition keys_sorted {K : Type} `{Key K} (groups : list (group K)) : Prop :=
  StronglySorted key_lt (map fst groups).

(** The running groups agree with the rows seen so far. *)
Definition agrees {K R : Type} `{Key K} `{Frame R} (by_ : R -> K)
    (g : list (group K)) (seen : list R) : Prop :=
  keys_sorted g /\ forall k, group_lookup k g = tally by_ k seen.

(** Lexicographic order on (hr, is_weekend) keys. *)
Definition lex_lt (a b : Z * Z) : Prop :=
  fst a < fst b \/ (fst a = fst b /\ snd a < snd b).

(** The four weather categories of the data model (clear, cloudy, light
    precipitation, heavy precipitation), coded 1 to 4 in the data file. *)
Definition known_weather (w : Z) : Prop := 1 <= w <= 4.

(** ** Output trace and program state *)

Inductive chart : Type :=
| LinePlot (data : list ((Z * Z) * Q))     (* sns.lineplot, x='hr', hue='is_weekend' *)
| BoxPlot (data : list HourlyRecord)       (* sns.boxplot, x='is_weekend', y='cnt' *)
| ScatterPlot (data : list DailyRecord)    (* sns.scatterplot, x='temp', y='cnt' *)
| BarPlot (data : list (Z * Q)).           (* sns.barplot, x='weathersit', y='cnt' *)

Inductive ui_event : Type :=
| StError (msg : string)
| LoggerError (msg : string)
| LoggerWarning (msg : string)
| SidebarTitle (text : string)
| SidebarImage
| SidebarWarning (msg : string)
| SidebarDateInput (label : string) (default_min default_max : option Z)
| StTitle (text : string)
| StSubheader (text : string)
| StWrite (text : string)
| StPyplot (fig : chart).

Definition is_chart (ev : ui_event) : bool :=
  match ev with
  | StPyplot _ => true
  | _ => false
  end.

Definition is_error_message (ev : ui_event) : bool :=
  match ev with
  | StError _ => true
  | _ => false
  end.

(** The two DataFrame objects [main] holds ([None] when the loader returned
    [None]) and the events emitted so far, oldest first. *)
Record state : Type := mkState {
  hour_df_2012 : option (list HourlyRecord);
  day_df_summer_2011 : option (list DailyRecord);
  ui : list ui_event
}.

Definition initial_state : state := mkState None None [].

(** Computations that read and write the state and may raise. *)
Definition App (A : Type) : Type := state -> state * result A.

Definition ret {A : Type} (a : A) : App A := fun s => (s, Ok a).

Definition raise {A : Type} (e : exception) : App A := fun s => (s, Raise e).

Definition bind {A B : Type} (m : App A) (k : A -> App B) : App B :=
  fun s =>
    match m s with
    | (s', Ok a) => k a s'
    | (s', Raise e) => (s', Raise e)
    end.

Notation "x <- m ;; k" := (bind m (fun x => k))
  (at level 61, m at next level, right associativity).
Notation "m ;; k" := (bind m (fun _ => k))
  (at level 61, right associativity).

Definition lift {A : Type} (r : result A) : App A := fun s => (s, r).

Definition emit (ev : ui_event) : App unit :=
  fun s => (mkState (hour_df_2012 s) (day_df_summer_2011 s) (ui s ++ [ev]), Ok tt).

(** [st.stop()]: ends the script run by raising [StopException], which the
    Streamlit runtime absorbs. *)
Definition st_stop : App unit := raise StopException.

(** How a script run ends. *)
Inductive outcome : Type :=
| Completed                     (* ran to the last line *)
| Stopped                       (* ended by [st.stop()] *)
| Crashed (e : exception).      (* an exception nobody caught *)

Definition outcome_of {A : Type} (r : result A) : outcome :=
  match r with
  | Ok _ => Completed
  | Raise StopException => Stopped
  | Raise e => Crashed e
  end.

(** ** Data loader (lines 21-33) *)

(** What [pd.read_csv] finds at a path. *)
Inductive csv_file (T : Type) : Type :=
| Missing                       (* no such file: FileNotFoundError *)
| Unreadable (cause : string)   (* any other exception, with its text *)
| Parsed (df : T).
Arguments Missing {T}.
Arguments Unreadable {T} cause.
Arguments Parsed {T} df.

Definition read_csv {T : Type} (f : csv_file T) : result T :=
  match f with
  | Missing => Raise FileNotFoundError
  | Unreadable cause => Raise (OtherException cause)
  | Parsed df => Ok df
  end.

(** Everything a run of the script reads from outside. *)
Record env : Type := mkEnv {
  hour_csv : csv_file (list HourlyRecord);   (* 'hour_df_2012_cleaned.csv' *)
  day_csv : csv_file (list DailyRecord);     (* 'day_df_summer_2011_cleaned.csv' *)
  bike_png : option string;                  (* [Some e]: loading the image raised [e] *)
  date_filter_hour : list Z;                 (* tuple returned by the first date picker *)
  date_filter_day : list Z                   (* tuple returned by the second date picker *)
}.

Definition not_found_message : string :=
  "Data files not found. Please ensure 'hour_df_2012_cleaned.csv' and 'day_df_summer_2011_cleaned.csv' are in the same directory as your script.".

Definition load_error_message (cause : string) : string :=
  "Error loading data: " ++ cause.

(** The body of the [try] block: the two reads, in order. *)
Definition read_both (e : env) : result (list HourlyRecord * list DailyRecord) :=
  let? hour_df := read_csv (hour_csv e) in
  let? day_df := read_csv (day_csv e) in
  Ok (hour_df, day_df).

Definition load_data (e : env)
    : App (option (list HourlyRecord) * option (list DailyRecord)) :=
  match read_both e with
  | Ok (hour_df, day_df) => ret (Some hour_df, Some day_df)
  | Raise FileNotFoundError =>
      emit (StError not_found_message) ;;
      ret (None, None)
  | Raise (OtherException cause) =>
      emit (LoggerError (load_error_message cause)) ;;
      emit (StError (load_error_message cause)) ;;
      ret (None, None)
  | Raise ex => raise ex
  end.

(** ** The script body ([main], lines 36-139) *)

(** [series.min()] and [series.max()] of a datetime column; [None] is NaT,
    the result on an empty column. *)
Definition series_min (col : list cell) : option Z :=
  fold_right (fun c acc =>
    match c, acc with
    | Timestamp ns, Some m => Some (Z.min ns m)
    | Timestamp ns, None => Some ns
    | Str _, _ => acc
    end) None col.

Definition series_max (col : list cell) : option Z :=
  fold_right (fun c acc =>
    match c, acc with
    | Timestamp ns, Some m => Some (Z.max ns m)
    | Timestamp ns, None => Some ns
    | Str _, _ => acc
    end) None col.

(** [df['dteday'] = col]: the column is replaced in place, row by row (the
    series always carries the frame's own index here). *)
Fixpoint setitem_dteday {R : Type} `{Frame R} (df : list R) (col : list cell) : list R :=
  match df, col with
  | r :: df', c :: col' => set_dteday c r :: setitem_dteday df' col'
  | _, _ => df
  end.

Definition set_hour_df (df : list HourlyRecord) : App unit :=
  fun s => (mkState (Some df) (day_df_summer_2011 s) (ui s), Ok tt).

Definition set_day_df (df : list DailyRecord) : App unit :=
  fun s => (mkState (hour_df_2012 s) (Some df) (ui s), Ok tt).

(** Reading a frame variable to subscript it; subscripting [None] is a TypeError. *)
Definition get_hour_df : App (list HourlyRecord) :=
  fun s =>
    match hour_df_2012 s with
    | Some df => (s, Ok df)
    | None => (s, Raise TypeError)
    end.

Definition get_day_df : App (list DailyRecord) :=
  fun s =>
    match day_df_summer_2011 s with
    | Some df => (s, Ok df)
    | None => (s, Raise TypeError)
    end.

Definition is_none {A : Type} (o : option A) : bool :=
  match o with
  | None => true
  | Some _ => false
  end.

Section Script.

(** [pd.to_datetime] on one string: its timestamp, or [None] when pandas
    cannot parse it. *)
Variable to_datetime : string -> option Z.

Definition to_datetime_cell (c : cell) : result cell :=
  match c with
  | Str s =>
      match to_datetime s with
      | Some ns => Ok (Timestamp ns)
      | None => Raise (DateParseError s)
      end
  | Timestamp ns => Ok (Timestamp ns)
  end.

(** [pd.to_datetime(series)] *)
Fixpoint to_datetime_series (col : list cell) : result (list cell) :=
  match col with
  | [] => Ok []
  | c :: tl =>
      let? c' := to_datetime_cell c in
      let? tl' := to_datetime_series tl in
      Ok (c' :: tl')
  end.

(** Lines 38-42: load, and stop the run when the loader returned [None]. *)
Definition load_or_stop (e : env) : App unit :=
  fun s =>
    match load_data e s with
    | (s', Ok (hour_df, day_df)) =>
        let s'' := mkState hour_df day_df (ui s') in
        if is_none hour_df || is_none day_df then st_stop s'' else (s'', Ok tt)
    | (s', Raise ex) => (s', Raise ex)
    end.

(** Lines 44-53: sidebar title and the decorative image. *)
Definition sidebar (e : env) : App unit :=
  emit (SidebarTitle "Bike Sharing Dashboard") ;;
  match bike_png e with
  | None => emit SidebarImage
  | Some cause =>
      emit (LoggerWarning ("Could not load bike image: " ++ cause)) ;;
      emit (SidebarWarning "Could not load bike image")
  end.

(** Lines 55-57: both date columns are converted and assigned back. *)
Definition convert_date_columns : App unit :=
  hour_df <- get_hour_df ;;
  hour_col <- lift (to_datetime_series (map dteday hour_df)) ;;
  set_hour_df (setitem_dteday hour_df hour_col) ;;
  day_df <- get_day_df ;;
  day_col <- lift (to_datetime_series (map dteday day_df)) ;;
  set_day_df (setitem_dteday day_df day_col).

(** Lines 59-73: the two date pickers, defaulting to each table's span. *)
Definition date_filters : App unit :=
  hour_df <- get_hour_df ;;
  day_df <- get_day_df ;;
  let min_date_hour := series_min (map dteday hour_df) in
  let max_date_hour := series_max (map dteday hour_df) in
  let min_date_day := series_min (map dteday day_df) in
  let max_date_day := series_max (map dteday day_df) in
  emit (SidebarDateInput "Filter Date (Hourly Data 2012)" min_date_hour max_date_hour) ;;
  emit (SidebarDateInput "Filter Date (Daily Summer 2011)" min_date_day max_date_day).

(** Lines 78-87: the filter stage on both tables. *)
Definition filter_stage (e : env) : App (list HourlyRecord * list DailyRecord) :=
  hour_df <- get_hour_df ;;
  filtered_hour_df <- lift (filter_by_date hour_df (date_filter_hour e)) ;;
  day_df <- get_day_df ;;
  filtered_day_df <- lift (filter_by_date day_df (date_filter_day e)) ;;
  ret (filtered_hour_df, filtered_day_df).

(** Lines 89-139: the four charts and their captions. *)
Definition visualizations
    (filtered_hour_df : list HourlyRecord) (filtered_day_df : list DailyRecord)
    : App unit :=
  emit (StSubheader "Hourly Bike Rentals (2012)") ;;
  emit (StWrite "Visualisasi ini menunjukkan rata-rata jumlah penyewaan sepeda per jam pada tahun 2012, dibedakan berdasarkan hari kerja dan akhir pekan.") ;;
  emit (StPyplot (LinePlot (average_rentals_per_hour filtered_hour_df))) ;;
  emit (StWrite "Box plot ini menunjukkan sebaran penyewaan sepeda pada hari kerja dan akhir pekan pada tahun 2012.") ;;
  emit (StPyplot (BoxPlot filtered_hour_df)) ;;
  emit (StSubheader "Summer 2011 Bike Rentals (Impact of Weather)") ;;
  emit (StWrite "Visualisasi ini menunjukkan hubungan antara suhu dan jumlah penyewaan sepeda selama musim panas tahun 2011, serta rata-rata penyewaan berdasarkan kondisi cuaca.") ;;
  emit (StPyplot (ScatterPlot filtered_day_df)) ;;
  emit (StPyplot (BarPlot (average_rentals_by_weather filtered_day_df))).

(** Everything after the date columns have been converted (lines 59-139). *)
Definition render (e : env) : App unit :=
  date_filters ;;
  emit (StTitle "Bike Sharing Analysis Dashboard") ;;
  filtered <- filter_stage e ;;
  visualizations (fst filtered) (snd filtered).

Definition main (e : env) : App unit :=
  load_or_stop e ;;
  sidebar e ;;
  convert_date_columns ;;
  render e.

(** One run of the script from a fresh state: the final state and how the
    run ended. *)
Definition run (e : env) : state * outcome :=
  let (s, r) := main e initial_state in (s, outcome_of r).

End Script.

(** A computation that leaves both tables as it found them. *)
Definition keeps_tables {A : Type} (m : App A) : Prop :=
  forall s,
    hour_df_2012 (fst (m s)) = hour_df_2012 s /\
    day_df_summer_2011 (fst (m s)) = day_df_summer_2011 s.

(** The columns of a table other than its date column. *)
Definition hourly_data (df : option (list HourlyRecord)) : option (list (Z * Z * Z)) :=
  option_map (map (fun r => (hr r, is_weekend r, h_cnt r))) df.

Definition daily_data (df : option (list DailyRecord)) : option (list (Q * Z * Z)) :=
  option_map (map (fun r => (temp r, weathersit r, d_cnt r))) df.

(** ** A concrete [to_datetime] for ISO dates

    [pd.to_datetime] restricted to the format of the data files,
    [YYYY-MM-DD]; it is used for concrete runs only. *)

Definition digit (c : Ascii.ascii) : option Z :=
  let n := Z.of_nat (Ascii.nat_of_ascii c) in
  if (48 <=? n) && (n <=? 57) then Some (n - 48) else None.

Fixpoint number (cs : list Ascii.ascii) (acc : Z) : option Z :=
  match cs with
  | [] => Some acc
  | c :: tl =>
      match digit c with
      | Some d => number tl (10 * acc + d)
      | None => None
      end
  end.

Definition is_leap (y : Z) : bool :=
  ((y mod 4 =? 0) && negb (y mod 100 =? 0)) || (y mod 400 =? 0).

Definition days_in_month (y m : Z) : Z :=
  if m =? 2 then (if is_leap y then 29 else 28)
  else if (m =? 4) || (m =? 6) || (m =? 9) || (m =? 11) then 30
  else 31.

(** Days from 1970-01-01 to the proleptic Gregorian date [y-m-d]. *)
Definition days_from_civil (y m d : Z) : Z :=
  let y' := if m <=? 2 then y - 1 else y in
  let era := y' / 400 in
  let yoe := y' - era * 400 in
  let mp := (m + 9) mod 12 in
  let doy := (153 * mp + 2) / 5 + d - 1 in
  let doe := yoe * 365 + yoe / 4 - yoe / 100 + doy in
  era * 146097 + doe - 719468.

Definition iso_to_datetime (s : string) : option Z :=
  match list_ascii_of_string s with
  | [y1; y2; y3; y4; sep1; m1; m2; sep2; d1; d2] =>
      match number [y1; y2; y3; y4] 0, number [m1; m2] 0, number [d1; d2] 0 with
      | Some y, Some m, Some d =>
          if Ascii.eqb sep1 "-"%char && Ascii.eqb sep2 "-"%char
             && (1 <=? m) && (m <=? 12) && (1 <=? d) && (d <=? days_in_month y m)
          then Some (days_from_civil y m d * NS_PER_DAY)
          else None
      | _, _, _ => None
      end
  | _ => None
  end.

(** ** Concrete tables and runs used in the examples below *)

Definition loaded_hour_df : list HourlyRecord :=
  [mkHourly (Str "2012-01-01") 8 0 100; mkHourly (Str "2012-01-07") 8 1 40].

Definition loaded_day_df : list DailyRecord :=
  [mkDaily (Str "2011-06-21") (245 # 10) 1 4000;
   mkDaily (Str "2011-06-22") (25 # 1) 2 3000;
   mkDaily (Str "2011-06-23") (26 # 1) 1 4400].

(** The same tables once their date columns are converted. *)
Definition sample_hour_df : list HourlyRecord :=
  [mkHourly (Timestamp 1325376000000000000) 8 0 100;
   mkHourly (Timestamp 1325894400000000000) 8 1 40].

Definition sample_day_df : list DailyRecord :=
  [mkDaily (Timestamp 1308614400000000000) (245 # 10) 1 4000;
   mkDaily (Timestamp 1308700800000000000) (25 # 1) 2 3000;
   mkDaily (Timestamp 1308787200000000000) (26 # 1) 1 4400].

(** Both files present, the image present, both pickers on the full span. *)
Definition sample_env : env :=
  mkEnv (Parsed loaded_hour_df) (Parsed loaded_day_df) None
        [15340; 15346] [15146; 15148].

(** The hourly file is empty (read_csv raises EmptyDataError) and the daily
    file does not exist. *)
Definition empty_hourly_missing_daily_env : env :=
  mkEnv (Unreadable "No columns to parse from file") Missing None [] [].

(** The hourly file is present, the daily file does not exist. *)
Definition missing_daily_env : env :=
  mkEnv (Parsed loaded_hour_df) Missing None [] [].

(** Both files parse, but one date cell of the hourly file is a string that
    is not a date. *)
Definition bad_date_env : env :=
  mkEnv (Parsed [mkHourly (Str "2012-01-01") 8 0 100;
                 mkHourly (Str "not-a-date") 9 0 120])
        (Parsed loaded_day_df) None [15340; 15346] [15146; 15148].

(** The hourly file is present, the daily file is malformed. *)
Definition malformed_daily_env : env :=
  mkEnv (Parsed loaded_hour_df) (Unreadable "Error tokenizing data") None [] [].

(** ** Further notions used by the properties of the pipeline *)

(** Whether every cell of the date column is a timestamp. *)
Definition is_datetime_column {R : Type} `{Frame R} (df : list R) : bool :=
  forallb (fun r => match dteday r with Timestamp _ => true | Str _ => false end) df.

(** The sum of the magnitudes of a table's counts, and the tables on which
    pandas' float64 accumulation of any group is exact: every partial sum is
    an integer of magnitude at most 2^53. *)
Definition abs_total {R : Type} `{Frame R} (df : list R) : Z :=
  fold_right (fun r acc => Z.abs (cnt r) + acc) 0 df.

Definition sums_exact {R : Type} `{Frame R} (df : list R) : Prop :=
  abs_total df <= 2 ^ 53.

(** A (hr, is_weekend) key as one integer, hours first. *)
Definition hour_slot (k : Z * Z) : Z := 2 * fst k + snd k.

(** The hours of a day and the two day types, as the charts assume them
    ([set_xticks(range(24))], two legend labels). *)
Definition known_hour_slot (k : Z * Z) : Prop :=
  0 <= fst k <= 23 /\ 0 <= snd k <= 1.

Definition is_parsed {T : Type} (f : csv_file T) : bool :=
  match f with
  | Parsed _ => true
  | _ => false
  end.

(** The events of the sidebar block (lines 44-53). *)
Definition sidebar_events (e : env) : list ui_event :=
  SidebarTitle "Bike Sharing Dashboard" ::
  match bike_png e with
  | None => [SidebarImage]
  | Some cause =>
      [LoggerWarning ("Could not load bike image: " ++ cause);
       SidebarWarning "Could not load bike image"]
  end.

(** The events of the two date pickers and the page title (lines 59-76). *)
Definition picker_events (hour_df : list HourlyRecord) (day_df : list DailyRecord)
    : list ui_event :=
  [SidebarDateInput "Filter Date (Hourly Data 2012)"
     (series_min (map dteday hour_df)) (series_max (map dteday hour_df));
   SidebarDateInput "Filter Date (Daily Summer 2011)"
     (series_min (map dteday day_df)) (series_max (map dteday day_df));
   StTitle "Bike Sharing Analysis Dashboard"].

(** The four chart calls of lines 89-139, in order. *)
Definition charts_of (filtered_hour_df : list HourlyRecord)
    (filtered_day_df : list DailyRecord) : list ui_event :=
  [StPyplot (LinePlot (average_rentals_per_hour filtered_hour_df));
   StPyplot (BoxPlot filtered_hour_df);
   StPyplot (ScatterPlot filtered_day_df);
   StPyplot (BarPlot (average_rentals_by_weather filtered_day_df))].

(** The events of the visualization block (lines 89-139): the four charts
    with their headers and captions. *)
Definition chart_events (filtered_hour_df : list HourlyRecord)
    (filtered_day_df : list DailyRecord) : list ui_event :=
  [StSubheader "Hourly Bike Rentals (2012)";
   StWrite "Visualisasi ini menunjukkan rata-rata jumlah penyewaan sepeda per jam pada tahun 2012, dibedakan berdasarkan hari kerja dan akhir pekan.";
   StPyplot (LinePlot (average_rentals_per_hour filtered_hour_df));
   StWrite "Box plot ini menunjukkan sebaran penyewaan sepeda pada hari kerja dan akhir pekan pada tahun 2012.";
   StPyplot (BoxPlot filtered_hour_df);
   StSubheader "Summer 2011 Bike Rentals (Impact of Weather)";
   StWrite "Visualisasi ini menunjukkan hubungan antara suhu dan jumlah penyewaan sepeda selama musim panas tahun 2011, serta rata-rata penyewaan berdasarkan kondisi cuaca.";
   StPyplot (ScatterPlot filtered_day_df);
   StPyplot (BarPlot (average_rentals_by_weather filtered_day_df))].

(** What a failed image load puts in place of the image. *)
Definition image_failure (cause : string) (ev : ui_event) : list ui_event :=
  match ev with
  | SidebarImage =>
      [LoggerWarning ("Could not load bike image: " ++ cause);
       SidebarWarning "Could not load bike image"]
  | _ => [ev]
  end.

(** The same run with the image present, or failing to load with [cause]. *)
Definition with_image (e : env) (image : option string) : env :=
  mkEnv (hour_csv e) (day_csv e) image (date_filter_hour e) (date_filter_day e).

(** A run once both files have loaded, stage by stage: conversion of the
    hourly then the daily dates, the pickers, the two filters, the charts. *)
Definition run_loaded (to_datetime : string -> option Z) (e : env)
    (h : list HourlyRecord) (d : list DailyRecord) : state * outcome :=
  match to_datetime_series to_datetime (map dteday h) with
  | Raise ex =>
      (mkState (Some h) (Some d) (sidebar_events e), outcome_of (@Raise unit ex))
  | Ok hour_col =>
      let h' := setitem_dteday h hour_col in
      match to_datetime_series to_datetime (map dteday d) with
      | Raise ex =>
          (mkState (Some h') (Some d) (sidebar_events e), outcome_of (@Raise unit ex))
      | Ok day_col =>
          let d' := setitem_dteday d day_col in
          let shown := sidebar_events e ++ picker_events h' d' in
          match filter_by_date h' (date_filter_hour e) with
          | Raise ex =>
              (mkState (Some h') (Some d') shown, outcome_of (@Raise unit ex))
          | Ok fh =>
              match filter_by_date d' (date_filter_day e) with
              | Raise ex =>
                  (mkState (Some h') (Some d') shown, outcome_of (@Raise unit ex))
              | Ok fd =>
                  (mkState (Some h') (Some d')
                     (shown ++ chart_events fh fd),
                   Completed)
              end
          end
      end
  end.

(** The messages of a failed load (lines 27-33). *)
Definition load_failure_events (e : env) : list ui_event :=
  match read_both e with
  | Raise FileNotFoundError => [StError not_found_message]
  | Raise (OtherException cause) =>
      [LoggerError (load_error_message cause); StError (load_error_message cause)]
  | _ => []
  end.

(** ** Facts about the filter stage *)

Section FilterFacts.
Context {R : Type} `{Frame R}.

Lemma dt_date_datetime (df : list R) :
  datetime_column df ->
  dt_date (map dteday df) =
    Ok (map (fun r => match row_date r with Some d => d | None => 0 end) df).
Proof.
  induction 1 as [|r df [ns Hr] _ IH]; simpl.
  - reflexivity.
  - unfold row_date. rewrite Hr, IH. reflexivity.
Qed.

Lemma getitem_mask_map (p : R -> bool) (df : list R) :
  getitem_mask df (map p df) = Ok (filter p df).
Proof.
  induction df as [|r df IH]; simpl.
  - reflexivity.
  - rewrite IH. simpl. destruct (p r); reflexivity.
Qed.

Lemma mask_in_range (start end_ : Z) (df : list R) :
  datetime_column df ->
  let ds := map (fun r => match row_date r with Some d => d | None => 0 end) df in
  series_and (series_ge ds start) (series_le ds end_) = map (in_range start end_) df.
Proof.
  induction 1 as [|r df [ns Hr] _ IH]; simpl.
  - reflexivity.
  - unfold series_and, series_ge, series_le in *. simpl in *.
    rewrite IH. unfold in_range, row_date. rewrite Hr. reflexivity.
Qed.

(** On a table with a date column the filter stage never raises and is the
    list filter by [in_range]. *)
Lemma filter_by_date_filter (df : list R) (start end_ : Z) :
  datetime_column df ->
  filter_by_date df [start; end_] = Ok (filter (in_range start end_) df).
Proof.
  intros Hdf. unfold filter_by_date.
  rewrite (dt_date_datetime df Hdf). simpl.
  rewrite (mask_in_range start end_ df Hdf).
  apply getitem_mask_map.
Qed.

Lemma datetime_column_filter (p : R -> bool) (df : list R) :
  datetime_column df -> datetime_column (filter p df).
Proof.
  unfold datetime_column. rewrite !Forall_forall.
  intros Hdf r Hr. apply filter_In in Hr. apply Hdf, Hr.
Qed.

Lemma in_range_bounds (start end_ : Z) (r : R) :
  in_range start end_ r = true <->
  exists d, row_date r = Some d /\ start <= d <= end_.
Proof.
  unfold in_range. destruct (row_date r) as [d|].
  - rewrite andb_true_iff, !Z.leb_le. split.
    + intros [? ?]. exists d. split; [reflexivity | lia].
    + intros [d' [Hd ?]]. injection Hd as <-. lia.
  - split; [discriminate | intros [d [Hd _]]; discriminate].
Qed.

Lemma Subseq_filter (p : R -> bool) (l : list R) : Subseq (filter p l) l.
Proof.
  induction l as [|x l IH]; simpl.
  - constructor.
  - destruct (p x); constructor; exact IH.
Qed.

Lemma filter_idem (p : R -> bool) (l : list R) :
  filter p (filter p l) = filter p l.
Proof.
  induction l as [|x l IH]; simpl.
  - reflexivity.
  - destruct (p x) eqn:E; simpl; rewrite ?E, IH; reflexivity.
Qed.

End FilterFacts.

(** ** The filter stage: range, reversed range, selection *)

(** C1. On a table with a date column and a pair [start <= end_], the filter
    stage returns rows of the input only, every returned row is dated within
    [start, end_], and every input row dated within [start, end_] is
    returned. *)
Theorem filter_returns_exactly_the_range {R : Type} `{Frame R}
    (df : list R) (start end_ : Z) :
  datetime_column df ->
  start <= end_ ->
  exists out,
    filter_by_date df [start; end_] = Ok out /\
    (forall r, In r out ->
       In r df /\ exists d, row_date r = Some d /\ start <= d <= end_) /\
    (forall r d, In r df -> row_date r = Some d -> start <= d <= end_ -> In r out).
Proof.
  intros Hdf _. exists (filter (in_range start end_) df).
  split; [apply filter_by_date_filter; exact Hdf|]. split.
  - intros r Hr. apply filter_In in Hr. destruct Hr as [Hin Hrange].
    split; [exact Hin | apply in_range_bounds; exact Hrange].
  - intros r d Hin Hd Hb. apply filter_In. split; [exact Hin|].
    apply in_range_bounds. exists d. split; assumption.
Qed.

Lemma sample_hour_df_datetime : datetime_column sample_hour_df.
Proof.
  unfold datetime_column, sample_hour_df.
  repeat constructor; eexists; reflexivity.
Defined.

Lemma sample_day_df_datetime : datetime_column sample_day_df.
Proof.
  unfold datetime_column, sample_day_df.
  repeat constructor; eexists; reflexivity.
Defined.

Lemma filter_returns_exactly_the_range_witness :
  exists out,
    filter_by_date sample_hour_df [15340; 15345] = Ok out /\
    (forall r, In r out ->
       In r sample_hour_df /\ exists d, row_date r = Some d /\ 15340 <= d <= 15345) /\
    (forall r d, In r sample_hour_df -> row_date r = Some d ->
       15340 <= d <= 15345 -> In r out).
Proof.
  apply (filter_returns_exactly_the_range sample_hour_df 15340 15345).
  - exact sample_hour_df_datetime.
  - lia.
Defined.

(** C2. On a table with a date column and a pair [start > end_], the filter
    stage does not raise and returns the empty table. *)
Theorem filter_reversed_range_is_empty {R : Type} `{Frame R}
    (df : list R) (start end_ : Z) :
  datetime_column df ->
  start > end_ ->
  filter_by_date df [start; end_] = Ok [].
Proof.
  intros Hdf Hgt. rewrite (filter_by_date_filter df start end_ Hdf). f_equal.
  clear Hdf. induction df as [|r df IH]; simpl.
  - reflexivity.
  - destruct (in_range start end_ r) eqn:E.
    + apply in_range_bounds in E. destruct E as [d [_ Hb]]. lia.
    + exact IH.
Qed.

Lemma filter_reversed_range_is_empty_witness :
  filter_by_date sample_hour_df [15346; 15340] = Ok [].
Proof.
  apply (filter_reversed_range_is_empty sample_hour_df 15346 15340).
  - exact sample_hour_df_datetime.
  - lia.
Defined.

(** C10. The filter stage selects and is idempotent: its result holds rows of
    the input only, in the input's order, and filtering the result again with
    the same pair returns it unchanged. *)
Theorem filter_selects_and_is_idempotent {R : Type} `{Frame R}
    (df : list R) (start end_ : Z) :
  datetime_column df ->
  exists out,
    filter_by_date df [start; end_] = Ok out /\
    (forall r, In r out -> In r df) /\
    Subseq out df /\
    filter_by_date out [start; end_] = Ok out.
Proof.
  intros Hdf. exists (filter (in_range start end_) df).
  split; [apply filter_by_date_filter; exact Hdf|]. split; [|split].
  - intros r Hr. apply filter_In in Hr. apply Hr.
  - apply Subseq_filter.
  - rewrite filter_by_date_filter by (apply datetime_column_filter; exact Hdf).
    rewrite filter_idem. reflexivity.
Qed.

Lemma filter_selects_and_is_idempotent_witness :
  exists out,
    filter_by_date sample_day_df [15147; 15148] = Ok out /\
    (forall r, In r out -> In r sample_day_df) /\
    Subseq out sample_day_df /\
    filter_by_date out [15147; 15148] = Ok out.
Proof.
  apply (filter_selects_and_is_idempotent sample_day_df 15147 15148).
  exact sample_day_df_datetime.
Defined.

(** ** Facts about the aggregation stage *)

#[export] Instance ZKeyLaws : KeyLaws Z.
Proof.
  split; simpl.
  - intros a b. apply Z.compare_eq_iff.
  - intros a b. apply Z.compare_antisym.
  - intros a b c. rewrite !Z.compare_lt_iff. lia.
Qed.

#[export] Instance PairKeyLaws : KeyLaws (Z * Z).
Proof.
  split; simpl.
  - intros [a1 a2] [b1 b2]; simpl.
    destruct (Z.compare_spec a1 b1) as [E|L|G].
    + rewrite Z.compare_eq_iff. split; [intros ->; subst; reflexivity|].
      intros Heq. injection Heq as _ E2. exact E2.
    + split; [discriminate|]. intros Heq. injection Heq as E1 _. lia.
    + split; [discriminate|]. intros Heq. injection Heq as E1 _. lia.
  - intros [a1 a2] [b1 b2]; simpl.
    rewrite (Z.compare_antisym a1 b1), (Z.compare_antisym a2 b2).
    destruct (a1 ?= b1); reflexivity.
  - intros [a1 a2] [b1 b2] [c1 c2]; simpl.
    destruct (Z.compare_spec a1 b1) as [E1|L1|G1];
      destruct (Z.compare_spec b1 c1) as [E2|L2|G2];
      rewrite ?Z.compare_lt_iff; try discriminate; intros H1 H2.
    + assert (E : (a1 ?= c1) = Eq) by (apply Z.compare_eq_iff; lia).
      rewrite E. apply Z.compare_lt_iff. lia.
    + assert (E : (a1 ?= c1) = Lt) by (apply Z.compare_lt_iff; lia).
      rewrite E. reflexivity.
    + assert (E : (a1 ?= c1) = Lt) by (apply Z.compare_lt_iff; lia).
      rewrite E. reflexivity.
    + assert (E : (a1 ?= c1) = Lt) by (apply Z.compare_lt_iff; lia).
      rewrite E. reflexivity.
Qed.

Section GroupFacts.
Context {K : Type} `{KeyLaws K}.

Lemma same_key_eq (a b : K) : same_key a b = true <-> a = b.
Proof.
  unfold same_key. rewrite <- key_compare_eq.
  destruct (key_compare a b); split; congruence.
Qed.

Lemma same_key_refl (a : K) : same_key a a = true.
Proof. apply same_key_eq. reflexivity. Qed.

Lemma key_lt_not_same (a b : K) : key_lt a b -> same_key a b = false.
Proof. unfold key_lt, same_key. intros ->. reflexivity. Qed.

Lemma key_gt_lt (a b : K) : key_compare a b = Gt -> key_lt b a.
Proof.
  unfold key_lt. intros Hgt. rewrite key_compare_antisym, Hgt. reflexivity.
Qed.

Lemma key_lt_irrefl (a : K) : ~ key_lt a a.
Proof.
  unfold key_lt. intros Hlt.
  assert (E : key_compare a a = Eq) by (apply key_compare_eq; reflexivity).
  congruence.
Qed.

Lemma group_lookup_above (k : K) (g : list (group K)) :
  Forall (key_lt k) (map fst g) -> group_lookup k g = None.
Proof.
  induction g as [|[k0 v] tl IH]; simpl; intros Hall.
  - reflexivity.
  - inversion Hall as [|? ? Hlt Htl]; subst.
    rewrite (key_lt_not_same _ _ Hlt). apply IH, Htl.
Qed.

Lemma group_add_keys (k : K) (c : Z) (g : list (group K)) (x : K) :
  In x (map fst (group_add k c g)) -> x = k \/ In x (map fst g).
Proof.
  induction g as [|[k0 [s n]] tl IH]; simpl.
  - intros [<-|[]]. left. reflexivity.
  - destruct (key_compare k k0); simpl.
    + intros Hx. right. exact Hx.
    + intros [<-|Hx]; [left; reflexivity | right; exact Hx].
    + intros [<-|Hx]; [right; left; reflexivity|].
      destruct (IH Hx) as [->|Hin]; [left; reflexivity | right; right; exact Hin].
Qed.

Lemma group_add_sorted (k : K) (c : Z) (g : list (group K)) :
  keys_sorted g -> keys_sorted (group_add k c g).
Proof.
  unfold keys_sorted.
  induction g as [|[k0 [s n]] tl IH]; simpl; intros Hs.
  - repeat constructor.
  - inversion Hs as [|? ? Htl Hall]; subst.
    destruct (key_compare k k0) eqn:E; simpl.
    + constructor; assumption.
    + constructor; [exact Hs|]. constructor; [exact E|].
      rewrite Forall_forall in *. intros x Hx.
      eapply key_compare_trans; [exact E | apply Hall, Hx].
    + constructor; [apply IH, Htl|].
      rewrite Forall_forall in *. intros x Hx.
      destruct (group_add_keys _ _ _ _ Hx) as [->|Hin].
      * apply key_gt_lt, E.
      * apply Hall, Hin.
Qed.

Lemma group_lookup_add (k k' : K) (c : Z) (g : list (group K)) :
  keys_sorted g ->
  group_lookup k (group_add k' c g) =
    if same_key k k'
    then Some (match group_lookup k' g with
               | Some (s, n) => (s + c, Pos.succ n)
               | None => (c, 1%positive)
               end)
    else group_lookup k g.
Proof.
  unfold keys_sorted.
  induction g as [|[k0 [s n]] tl IH]; simpl; intros Hs.
  - reflexivity.
  - inversion Hs as [|? ? Htl Hall]; subst.
    destruct (key_compare k' k0) eqn:E; simpl.
    + apply key_compare_eq in E. subst k0. rewrite same_key_refl.
      destruct (same_key k k'); reflexivity.
    + assert (Hnone : group_lookup k' tl = None).
      { apply group_lookup_above. rewrite Forall_forall in *. intros x Hx.
        eapply key_compare_trans; [exact E | apply Hall, Hx]. }
      rewrite (key_lt_not_same _ _ E), Hnone. reflexivity.
    + assert (Hk' : same_key k' k0 = false) by (unfold same_key; rewrite E; reflexivity).
      rewrite Hk', (IH Htl).
      destruct (same_key k k0) eqn:E0; [|reflexivity].
      apply same_key_eq in E0. subst k0.
      destruct (same_key k k') eqn:E1; [|reflexivity].
      apply same_key_eq in E1. subst k'. rewrite same_key_refl in Hk'. discriminate.
Qed.

Lemma group_lookup_In (k : K) (v : Z * positive) (g : list (group K)) :
  keys_sorted g -> (In (k, v) g <-> group_lookup k g = Some v).
Proof.
  unfold keys_sorted.
  induction g as [|[k0 v0] tl IH]; simpl; intros Hs.
  - split; [intros [] | discriminate].
  - inversion Hs as [|? ? Htl Hall]; subst.
    destruct (same_key k k0) eqn:E.
    + apply same_key_eq in E. subst k0. split.
      * intros [Heq|Hin]; [congruence|].
        exfalso. rewrite Forall_forall in Hall.
        apply (key_lt_irrefl k), Hall.
        change k with (fst (k, v)). apply in_map, Hin.
      * intros Heq. left. congruence.
    + rewrite <- (IH Htl). split.
      * intros [Heq|Hin]; [|exact Hin].
        injection Heq as -> _. rewrite same_key_refl in E. discriminate.
      * intros Hin. right. exact Hin.
Qed.

Lemma keys_sorted_NoDup (l : list K) : StronglySorted key_lt l -> NoDup l.
Proof.
  induction 1 as [|a l _ IH Hall]; constructor.
  - intros Hin. rewrite Forall_forall in Hall.
    apply (key_lt_irrefl a), Hall, Hin.
  - exact IH.
Qed.

End GroupFacts.

Section TallyFacts.
Context {K R : Type} `{KeyLaws K} `{Frame R}.
Variable by_ : R -> K.

Lemma sum_cnt_app (l1 l2 : list R) : sum_cnt (l1 ++ l2) = sum_cnt l1 + sum_cnt l2.
Proof.
  unfold sum_cnt. induction l1 as [|r l1 IH]; simpl; [reflexivity | lia].
Qed.

Lemma rows_of_snoc (k : K) (seen : list R) (r : R) :
  rows_of by_ k (seen ++ [r]) =
    rows_of by_ k seen ++ (if same_key k (by_ r) then [r] else []).
Proof. unfold rows_of. rewrite filter_app. reflexivity. Qed.

Lemma tally_snoc (k : K) (seen : list R) (r : R) :
  tally by_ k (seen ++ [r]) =
    if same_key k (by_ r)
    then Some (match tally by_ k seen with
               | Some (s, n) => (s + cnt r, Pos.succ n)
               | None => (cnt r, 1%positive)
               end)
    else tally by_ k seen.
Proof.
  unfold tally. rewrite rows_of_snoc.
  destruct (same_key k (by_ r)).
  - destruct (rows_of by_ k seen) as [|x rows]; simpl.
    + unfold sum_cnt; simpl. rewrite Z.add_0_r. reflexivity.
    + rewrite sum_cnt_app, length_app. simpl.
      replace (List.length rows + 1)%nat with (S (List.length rows)) by lia.
      do 2 f_equal. lia.
  - rewrite app_nil_r. reflexivity.
Qed.

Lemma agrees_step (g : list (group K)) (seen : list R) (r : R) :
  agrees by_ g seen -> agrees by_ (group_add (by_ r) (cnt r) g) (seen ++ [r]).
Proof.
  intros [Hs Hl]. split.
  - apply group_add_sorted, Hs.
  - intros k. rewrite (group_lookup_add _ _ _ _ Hs), tally_snoc.
    destruct (same_key k (by_ r)) eqn:E; [|apply Hl].
    apply same_key_eq in E. subst k. rewrite Hl. reflexivity.
Qed.

Lemma agrees_fold (df : list R) :
  forall (g : list (group K)) (seen : list R),
    agrees by_ g seen ->
    agrees by_ (fold_left (fun groups r => group_add (by_ r) (cnt r) groups) df g)
           (seen ++ df).
Proof.
  induction df as [|r df IH]; simpl; intros g seen Hg.
  - rewrite app_nil_r. exact Hg.
  - replace (seen ++ r :: df) with ((seen ++ [r]) ++ df)
      by (rewrite <- app_assoc; reflexivity).
    apply IH, agrees_step, Hg.
Qed.

Lemma group_sums_agrees (df : list R) : agrees by_ (group_sums by_ df) df.
Proof.
  unfold group_sums. apply (agrees_fold df [] []).
  split; [constructor | reflexivity].
Qed.

Lemma groupby_mean_keys (df : list R) :
  map fst (groupby_mean by_ df) = map fst (group_sums by_ df).
Proof. unfold groupby_mean. rewrite map_map. reflexivity. Qed.

(** The output is ordered by key. *)
Lemma groupby_mean_sorted (df : list R) :
  StronglySorted key_lt (map fst (groupby_mean by_ df)).
Proof. rewrite groupby_mean_keys. apply (group_sums_agrees df). Qed.

(** One output row per key occurring in the table. *)
Lemma groupby_mean_key_iff (df : list R) (k : K) :
  In k (map fst (groupby_mean by_ df)) <-> exists r, In r df /\ by_ r = k.
Proof.
  rewrite groupby_mean_keys. destruct (group_sums_agrees df) as [Hs Hl].
  split.
  - intros Hin. apply in_map_iff in Hin. destruct Hin as [[k' v] [Hk Hin]].
    simpl in Hk. subst k'.
    apply (group_lookup_In _ _ _ Hs) in Hin. rewrite Hl in Hin.
    unfold tally in Hin. destruct (rows_of by_ k df) as [|r rows] eqn:E.
    + discriminate.
    + assert (Hr : In r (rows_of by_ k df)) by (rewrite E; left; reflexivity).
      apply filter_In in Hr. destruct Hr as [Hr Hk]. exists r.
      split; [exact Hr|]. symmetry. apply same_key_eq, Hk.
  - intros [r [Hr Hk]].
    assert (Hin : In r (rows_of by_ k df)).
    { apply filter_In. split; [exact Hr|]. apply same_key_eq. congruence. }
    destruct (group_lookup k (group_sums by_ df)) as [v|] eqn:E.
    + apply (group_lookup_In _ _ _ Hs) in E.
      change k with (fst (k, v)). apply in_map, E.
    + rewrite Hl in E. unfold tally in E.
      destruct (rows_of by_ k df); [destruct Hin | discriminate].
Qed.

(** The mean of an output row is the arithmetic mean over its group. *)
Lemma groupby_mean_value (df : list R) (k : K) (m : Q) :
  In (k, m) (groupby_mean by_ df) ->
  rows_of by_ k df <> [] /\ m == arithmetic_mean (rows_of by_ k df).
Proof.
  destruct (group_sums_agrees df) as [Hs Hl].
  unfold groupby_mean. intros Hin. apply in_map_iff in Hin.
  destruct Hin as [[k' [s n]] [Hk Hin]].
  unfold group_mean in Hk. cbn [fst snd] in Hk.
  assert (Hk' : k' = k) by congruence.
  assert (Hm : m = Qred (s # n)) by congruence.
  clear Hk. subst k' m.
  apply (group_lookup_In _ _ _ Hs) in Hin. rewrite Hl in Hin.
  unfold tally in Hin. destruct (rows_of by_ k df) as [|r rows] eqn:E.
  - discriminate.
  - assert (Hsum : s = sum_cnt (r :: rows)) by congruence.
    assert (Hn : n = Pos.of_nat (List.length (r :: rows))) by congruence.
    clear Hin. subst s n. split; [discriminate|].
    eapply Qeq_trans; [apply Qred_correct|].
    eapply Qeq_trans; [apply Qmake_Qdiv|].
    unfold arithmetic_mean.
    replace (Z.pos (Pos.of_nat (List.length (r :: rows))))
      with (Z.of_nat (List.length (r :: rows))); [apply Qeq_refl|].
    rewrite <- positive_nat_Z, Nat2Pos.id by (simpl; lia). reflexivity.
Qed.

End TallyFacts.

Lemma StronglySorted_weaken {A : Type} (P Q : A -> A -> Prop) (l : list A) :
  (forall a b, P a b -> Q a b) -> StronglySorted P l -> StronglySorted Q l.
Proof.
  intros HPQ. induction 1 as [|a l _ IH Hall]; constructor.
  - exact IH.
  - rewrite Forall_forall in *. intros x Hx. apply HPQ, Hall, Hx.
Qed.

Lemma pair_key_lt_lex (a b : Z * Z) : key_lt a b -> lex_lt a b.
Proof.
  unfold key_lt, lex_lt. simpl.
  destruct (Z.compare_spec (fst a) (fst b)) as [E|L|G].
  - rewrite Z.compare_lt_iff. intros Hlt. right. split; assumption.
  - intros _. left. exact L.
  - discriminate.
Qed.

Lemma Z_key_lt (a b : Z) : key_lt a b -> a < b.
Proof. unfold key_lt. simpl. apply Z.compare_lt_iff. Qed.

(** A strictly increasing list of integers within [lo, hi] has at most
    [hi - lo + 1] entries. *)
Lemma increasing_within_bounds (l : list Z) :
  StronglySorted Z.lt l ->
  forall lo hi, Forall (fun x => lo <= x <= hi) l -> lo <= hi + 1 ->
  Z.of_nat (List.length l) <= hi - lo + 1.
Proof.
  induction 1 as [|a l _ IH Hall]; intros lo hi Hb Hlh.
  - simpl. lia.
  - inversion Hb as [|? ? Ha Hl]; subst.
    assert (Htl : Z.of_nat (List.length l) <= hi - (a + 1) + 1).
    { apply IH; [|lia]. rewrite Forall_forall in *. intros x Hx.
      specialize (Hall x Hx). specialize (Hl x Hx). lia. }
    simpl List.length. lia.
Qed.

Lemma rows_of_weathersit (w : Z) (df : list DailyRecord) :
  rows_of weathersit w df = filter (fun r => weathersit r =? w) df.
Proof.
  unfold rows_of. apply filter_ext. intros r.
  destruct (Z.eqb_spec (weathersit r) w) as [E|E].
  - apply same_key_eq. congruence.
  - destruct (same_key w (weathersit r)) eqn:S; [|reflexivity].
    apply same_key_eq in S. congruence.
Qed.

(** ** The aggregation stage: groups, means, order *)

(** C6. On a filtered daily table whose weather codes are the four known
    categories, aggregation by weather condition yields at most 4 groups, one
    per distinct weather code occurring in the table, and each group's mean is
    the arithmetic mean of the counts of exactly the rows with that code. *)
Theorem weather_aggregation_groups_and_means (filtered_day_df : list DailyRecord) :
  Forall (fun r => known_weather (weathersit r)) filtered_day_df ->
  let out := average_rentals_by_weather filtered_day_df in
  (List.length out <= 4)%nat /\
  NoDup (map fst out) /\
  (forall w, In w (map fst out) <->
             exists r, In r filtered_day_df /\ weathersit r = w) /\
  (forall w m, In (w, m) out ->
     filter (fun r => weathersit r =? w) filtered_day_df <> [] /\
     m == arithmetic_mean (filter (fun r => weathersit r =? w) filtered_day_df)).
Proof.
  intros Hknown out. unfold out, average_rentals_by_weather.
  pose proof (groupby_mean_sorted weathersit filtered_day_df) as Hsorted.
  split; [|split; [|split]].
  - apply (StronglySorted_weaken _ Z.lt _ Z_key_lt) in Hsorted.
    assert (Hcodes : Forall (fun w => 1 <= w <= 4)
                       (map fst (groupby_mean weathersit filtered_day_df))).
    { rewrite Forall_forall in *. intros w Hw.
      apply (groupby_mean_key_iff weathersit) in Hw. destruct Hw as [r [Hr <-]].
      apply (Hknown r Hr). }
    pose proof (increasing_within_bounds _ Hsorted 1 4 Hcodes) as Hlen.
    rewrite length_map in Hlen. lia.
  - apply keys_sorted_NoDup, Hsorted.
  - intros w. apply (groupby_mean_key_iff weathersit).
  - intros w m Hin. rewrite <- rows_of_weathersit.
    apply (groupby_mean_value weathersit), Hin.
Qed.

Lemma weather_aggregation_groups_and_means_witness :
  let out := average_rentals_by_weather sample_day_df in
  (List.length out <= 4)%nat /\
  NoDup (map fst out) /\
  (forall w, In w (map fst out) <->
             exists r, In r sample_day_df /\ weathersit r = w) /\
  (forall w m, In (w, m) out ->
     filter (fun r => weathersit r =? w) sample_day_df <> [] /\
     m == arithmetic_mean (filter (fun r => weathersit r =? w) sample_day_df)).
Proof.
  apply (weather_aggregation_groups_and_means sample_day_df).
  unfold sample_day_df, known_weather. repeat constructor; simpl; lia.
Defined.

(** C7. Both group-by-mean aggregations return their rows in increasing order
    of the grouping key: (hr, is_weekend) lexicographically, weathersit by
    value.  Being functions of the table, they return the same rows in the
    same order for the same input. *)
Theorem aggregations_sorted_by_key
    (filtered_hour_df : list HourlyRecord) (filtered_day_df : list DailyRecord) :
  StronglySorted lex_lt (map fst (average_rentals_per_hour filtered_hour_df)) /\
  StronglySorted Z.lt (map fst (average_rentals_by_weather filtered_day_df)).
Proof.
  split.
  - apply (StronglySorted_weaken key_lt lex_lt _ pair_key_lt_lex).
    apply groupby_mean_sorted.
  - apply (StronglySorted_weaken key_lt Z.lt _ Z_key_lt).
    apply groupby_mean_sorted.
Qed.

(** An empty filtered table aggregates to no rows at all. *)
Lemma aggregations_of_empty_table :
  average_rentals_per_hour [] = [] /\ average_rentals_by_weather [] = [].
Proof. split; reflexivity. Qed.

(** C9. An hourly table of exactly the two rows (hr=8, is_weekend=0, cnt=100)
    and (hr=8, is_weekend=1, cnt=40), whatever their dates, aggregates by
    (hr, is_weekend) to exactly two groups, with means 100 and 40. *)
Theorem two_row_hourly_scenario (d1 d2 : cell) :
  average_rentals_per_hour [mkHourly d1 8 0 100; mkHourly d2 8 1 40] =
    [((8, 0), 100 # 1); ((8, 1), 40 # 1)].
Proof. reflexivity. Qed.

(** ** Facts about the loader and the script *)

(** When the loader hands back [None], the run stops right after the
    loader's own messages. *)
Lemma run_stops_after_load (to_datetime : string -> option Z) (e : env)
    (msgs : list ui_event) :
  load_data e initial_state = (mkState None None msgs, Ok (None, None)) ->
  run to_datetime e = (mkState None None msgs, Stopped).
Proof.
  intros Hload. unfold run, main, bind, load_or_stop. rewrite Hload. reflexivity.
Qed.

Lemma load_data_not_found (e : env) :
  read_both e = Raise FileNotFoundError ->
  load_data e initial_state =
    (mkState None None [StError not_found_message], Ok (None, None)).
Proof. intros Hread. unfold load_data. rewrite Hread. reflexivity. Qed.

Lemma load_data_other (e : env) (cause : string) :
  read_both e = Raise (OtherException cause) ->
  load_data e initial_state =
    (mkState None None [LoggerError (load_error_message cause);
                        StError (load_error_message cause)], Ok (None, None)).
Proof. intros Hread. unfold load_data. rewrite Hread. reflexivity. Qed.

(** A missing file makes the [try] block fail, one way or the other. *)
Lemma read_both_missing (e : env) :
  hour_csv e = Missing \/ day_csv e = Missing ->
  read_both e = Raise FileNotFoundError \/
  exists cause, hour_csv e = Unreadable cause /\
                read_both e = Raise (OtherException cause).
Proof.
  unfold read_both. intros [Hh|Hd].
  - rewrite Hh. left. reflexivity.
  - rewrite Hd. destruct (hour_csv e) as [|cause|df]; simpl.
    + left. reflexivity.
    + right. exists cause. split; reflexivity.
    + left. reflexivity.
Qed.

(** ** The loader: missing files and other failures *)

(** C4, as the code has it.  If a required data file is missing, the run shows
    an error message, is stopped by [st.stop()] rather than by an uncaught
    exception, and renders no chart.  The message is the not-found message
    when the hourly file is the missing one or was read successfully; when
    the hourly file fails to parse, its own error is reported and the daily
    file is never looked at. *)
Theorem missing_file_stops_the_run (to_datetime : string -> option Z) (e : env) :
  hour_csv e = Missing \/ day_csv e = Missing ->
  snd (run to_datetime e) = Stopped /\
  existsb is_chart (ui (fst (run to_datetime e))) = false /\
  existsb is_error_message (ui (fst (run to_datetime e))) = true /\
  (hour_csv e = Missing \/ (exists df, hour_csv e = Parsed df) ->
   ui (fst (run to_datetime e)) = [StError not_found_message]).
Proof.
  intros Hmissing.
  destruct (read_both_missing e Hmissing) as [Hnf | [cause [Hh Hother]]].
  - rewrite (run_stops_after_load to_datetime e _ (load_data_not_found e Hnf)).
    simpl. repeat split; reflexivity.
  - rewrite (run_stops_after_load to_datetime e _ (load_data_other e cause Hother)).
    simpl. repeat split; try reflexivity.
    intros [Hm | [df Hp]]; congruence.
Qed.

Lemma missing_file_stops_the_run_witness :
  snd (run iso_to_datetime missing_daily_env) = Stopped /\
  existsb is_chart (ui (fst (run iso_to_datetime missing_daily_env))) = false /\
  existsb is_error_message (ui (fst (run iso_to_datetime missing_daily_env))) = true /\
  (hour_csv missing_daily_env = Missing \/
   (exists df, hour_csv missing_daily_env = Parsed df) ->
   ui (fst (run iso_to_datetime missing_daily_env)) = [StError not_found_message]).
Proof.
  apply (missing_file_stops_the_run iso_to_datetime missing_daily_env).
  right. reflexivity.
Defined.

(** C4, as stated, fails: with the hourly file empty and the daily file
    missing, a required file is missing and yet the not-found message is not
    shown; the run reports the hourly file's parse error instead. *)
Lemma missing_daily_file_reported_as_load_error :
  day_csv empty_hourly_missing_daily_env = Missing /\
  ui (fst (run iso_to_datetime empty_hourly_missing_daily_env)) =
    [LoggerError "Error loading data: No columns to parse from file";
     StError "Error loading data: No columns to parse from file"] /\
  ~ In (StError not_found_message)
       (ui (fst (run iso_to_datetime empty_hourly_missing_daily_env))).
Proof.
  split; [reflexivity|]. split; [reflexivity|].
  intros [Hin | [Hin | []]]; discriminate.
Qed.

(** Read failures are handled the way C5 asks.  If reading a data file fails
    for a reason other than a missing file (the first read that fails raises
    some other exception), the run logs and shows the text
    "Error loading data: " followed by the text of that exception, emits
    nothing else, and is stopped by [st.stop()] rather than by an uncaught
    exception. *)
Theorem load_error_stops_the_run (to_datetime : string -> option Z) (e : env)
    (cause : string) :
  hour_csv e = Unreadable cause \/
  ((exists df, hour_csv e = Parsed df) /\ day_csv e = Unreadable cause) ->
  run to_datetime e =
    (mkState None None
       [LoggerError (String.append "Error loading data: " cause);
        StError (String.append "Error loading data: " cause)],
     Stopped).
Proof.
  intros Hfail.
  apply (run_stops_after_load to_datetime e
           [LoggerError (load_error_message cause);
            StError (load_error_message cause)]).
  apply load_data_other.
  unfold read_both. destruct Hfail as [Hh | [[df Hh] Hd]].
  - rewrite Hh. reflexivity.
  - rewrite Hh, Hd. reflexivity.
Qed.

Lemma load_error_stops_the_run_witness :
  run iso_to_datetime malformed_daily_env =
    (mkState None None
       [LoggerError "Error loading data: Error tokenizing data";
        StError "Error loading data: Error tokenizing data"],
     Stopped).
Proof.
  apply (load_error_stops_the_run iso_to_datetime malformed_daily_env
           "Error tokenizing data").
  right. split; [exists loaded_hour_df; reflexivity | reflexivity].
Defined.

(** C5.  The code misses a case of it: parsing the date column is part of
    loading, yet it happens after [load_data] has returned, outside its
    [try].  With both files readable and one date cell that [pd.to_datetime]
    rejects, loading fails for a reason other than a missing file; no error
    message is shown and the run ends with an exception nobody catches,
    where a read failure is reported and stops the run. *)
Lemma unparsable_date_is_not_reported :
  (exists h d, hour_csv bad_date_env = Parsed h /\ day_csv bad_date_env = Parsed d) /\
  to_datetime_series iso_to_datetime
    (map dteday [mkHourly (Str "2012-01-01") 8 0 100;
                 mkHourly (Str "not-a-date") 9 0 120]) =
    Raise (DateParseError "not-a-date") /\
  snd (run iso_to_datetime bad_date_env) = Crashed (DateParseError "not-a-date") /\
  ui (fst (run iso_to_datetime bad_date_env)) =
    [SidebarTitle "Bike Sharing Dashboard"; SidebarImage] /\
  existsb is_error_message (ui (fst (run iso_to_datetime bad_date_env))) = false.
Proof.
  split.
  - eexists. eexists. split; reflexivity.
  - repeat split; vm_compute; reflexivity.
Qed.

(** ** The loaded tables across a run *)

Lemma keeps_tables_emit (ev : ui_event) : keeps_tables (emit ev).
Proof. intros s. split; reflexivity. Qed.

Lemma keeps_tables_lift {A : Type} (r : result A) : keeps_tables (lift r).
Proof. intros s. split; reflexivity. Qed.

Lemma keeps_tables_ret {A : Type} (a : A) : keeps_tables (ret a).
Proof. intros s. split; reflexivity. Qed.

Lemma keeps_tables_get_hour_df : keeps_tables get_hour_df.
Proof.
  intros s. unfold get_hour_df. destruct (hour_df_2012 s) eqn:E; simpl; split; auto.
Qed.

Lemma keeps_tables_get_day_df : keeps_tables get_day_df.
Proof.
  intros s. unfold get_day_df. destruct (day_df_summer_2011 s) eqn:E; simpl; split; auto.
Qed.

Lemma keeps_tables_bind {A B : Type} (m : App A) (k : A -> App B) :
  keeps_tables m -> (forall a, keeps_tables (k a)) -> keeps_tables (bind m k).
Proof.
  intros Hm Hk s. unfold bind. specialize (Hm s).
  destruct (m s) as [s' [a|ex]]; simpl in *.
  - destruct (Hk a s') as [Hh Hd]. destruct Hm as [Hh' Hd']. split; congruence.
  - exact Hm.
Qed.

Create HintDb tables.

#[local] Hint Resolve keeps_tables_emit keeps_tables_lift keeps_tables_ret
  keeps_tables_get_hour_df keeps_tables_get_day_df : tables.

Ltac keeps_tables_step :=
  first [ apply keeps_tables_bind; [|intros ?] | solve [auto with tables] ].

Lemma keeps_tables_date_filters : keeps_tables date_filters.
Proof. unfold date_filters. repeat keeps_tables_step. Qed.

Lemma keeps_tables_filter_stage (e : env) : keeps_tables (filter_stage e).
Proof. unfold filter_stage. repeat keeps_tables_step. Qed.

Lemma keeps_tables_visualizations
    (filtered_hour_df : list HourlyRecord) (filtered_day_df : list DailyRecord) :
  keeps_tables (visualizations filtered_hour_df filtered_day_df).
Proof. unfold visualizations. repeat keeps_tables_step. Qed.

Lemma keeps_tables_render (e : env) : keeps_tables (render e).
Proof.
  unfold render.
  apply keeps_tables_bind; [apply keeps_tables_date_filters | intros _].
  apply keeps_tables_bind; [apply keeps_tables_emit | intros _].
  apply keeps_tables_bind; [apply keeps_tables_filter_stage | intros filtered].
  apply keeps_tables_visualizations.
Qed.

(** Assigning the date column touches no other column. *)
Lemma convert_date_columns_data (to_datetime : string -> option Z) (s : state) :
  hourly_data (hour_df_2012 (fst (convert_date_columns to_datetime s))) =
    hourly_data (hour_df_2012 s) /\
  daily_data (day_df_summer_2011 (fst (convert_date_columns to_datetime s))) =
    daily_data (day_df_summer_2011 s).
Proof.
  assert (Hh : forall df col,
             hourly_data (Some (setitem_dteday df col)) = hourly_data (Some df)).
  { intros df. induction df as [|r df IH]; intros [|c col]; try reflexivity.
    specialize (IH col). unfold hourly_data in *. simpl in *. congruence. }
  assert (Hd : forall df col,
             daily_data (Some (setitem_dteday df col)) = daily_data (Some df)).
  { intros df. induction df as [|r df IH]; intros [|c col]; try reflexivity.
    specialize (IH col). unfold daily_data in *. simpl in *. congruence. }
  unfold convert_date_columns, bind, get_hour_df, get_day_df, lift,
    set_hour_df, set_day_df.
  destruct s as [[h|] [d|] u]; simpl;
    try (split; reflexivity);
    destruct (to_datetime_series to_datetime (map h_dteday h)) as [hcol|ex]; simpl;
    try (split; reflexivity);
    try destruct (to_datetime_series to_datetime (map d_dteday d)) as [dcol|ex]; simpl;
    split; first [reflexivity | apply Hh | apply Hd].
Qed.

(** C3.  Once the tables are loaded, their date columns parsed (lines 56-57,
    the last step of loading, which rewrites the date column and no other),
    nothing mutates them: the filter stage and every later stage, the four
    charts included, produce derived tables and leave both loaded tables
    exactly as they found them. *)
Theorem tables_change_only_in_date_conversion
    (to_datetime : string -> option Z) (e : env) (s : state) :
  (hourly_data (hour_df_2012 (fst (convert_date_columns to_datetime s))) =
     hourly_data (hour_df_2012 s) /\
   daily_data (day_df_summer_2011 (fst (convert_date_columns to_datetime s))) =
     daily_data (day_df_summer_2011 s)) /\
  (hour_df_2012 (fst (render e s)) = hour_df_2012 s /\
   day_df_summer_2011 (fst (render e s)) = day_df_summer_2011 s).
Proof.
  split.
  - apply convert_date_columns_data.
  - apply keeps_tables_render.
Qed.

(** ** More on the filter stage *)

Section FilterOutcomes.
Context {R : Type} `{Frame R}.

Lemma is_datetime_column_true (df : list R) :
  is_datetime_column df = true <-> datetime_column df.
Proof.
  unfold is_datetime_column, datetime_column.
  rewrite forallb_forall, Forall_forall. split; intros Hall r Hr.
  - specialize (Hall r Hr). destruct (dteday r) as [s|ns]; [discriminate|].
    exists ns. reflexivity.
  - destruct (Hall r Hr) as [ns ->]. reflexivity.
Qed.

Lemma dt_date_not_datetime (df : list R) :
  is_datetime_column df = false -> dt_date (map dteday df) = Raise AttributeError.
Proof.
  unfold is_datetime_column.
  induction df as [|r df IH]; simpl; [discriminate|].
  destruct (dteday r) as [s|ns]; simpl; [reflexivity|].
  intros Hdf. rewrite (IH Hdf). reflexivity.
Qed.

Lemma filter_all (p : R -> bool) (df : list R) :
  (forall r, In r df -> p r = true) -> filter p df = df.
Proof.
  induction df as [|r df IH]; simpl; intros Hall; [reflexivity|].
  rewrite (Hall r (or_introl eq_refl)), IH; [reflexivity|].
  intros x Hx. apply Hall. right. exact Hx.
Qed.

Lemma filter_filter_and (p q : R -> bool) (df : list R) :
  filter q (filter p df) = filter (fun r => p r && q r) df.
Proof.
  induction df as [|r df IH]; simpl; [reflexivity|].
  destruct (p r); simpl; [destruct (q r)|]; rewrite IH; reflexivity.
Qed.

Lemma in_range_intersection (s1 e1 s2 e2 : Z) (r : R) :
  in_range (Z.max s1 s2) (Z.min e1 e2) r = in_range s1 e1 r && in_range s2 e2 r.
Proof.
  unfold in_range. destruct (row_date r) as [d|]; [|reflexivity].
  apply eq_true_iff_eq. rewrite !andb_true_iff, !Z.leb_le. lia.
Qed.

End FilterOutcomes.

(** The filter stage, case by case. *)
Lemma filter_by_date_cases {R : Type} `{Frame R}
    (df : list R) (date_filter : list Z) :
  filter_by_date df date_filter =
    if is_datetime_column df
    then match date_filter with
         | start :: end_ :: _ => Ok (filter (in_range start end_) df)
         | _ => Raise IndexError
         end
    else Raise AttributeError.
Proof.
  destruct (is_datetime_column df) eqn:E.
  - apply is_datetime_column_true in E.
    destruct date_filter as [|start [|end_ rest]].
    + unfold filter_by_date. rewrite (dt_date_datetime df E). reflexivity.
    + unfold filter_by_date. rewrite (dt_date_datetime df E). reflexivity.
    + rewrite <- (filter_by_date_filter df start end_ E). reflexivity.
  - unfold filter_by_date. rewrite (dt_date_not_datetime df E). reflexivity.
Qed.

(** X1. What the filter expression returns or raises, for every table with
    at least one row and every picker tuple: AttributeError when some date
    cell is still a string (the column was not converted), else IndexError
    when the tuple holds fewer than two dates, else the rows dated between
    the tuple's first two entries; further entries are ignored. *)
Theorem filter_by_date_outcomes {R : Type} `{Frame R}
    (df : list R) (date_filter : list Z) :
  (0 < List.length df)%nat ->
  filter_by_date df date_filter =
    if is_datetime_column df
    then match date_filter with
         | start :: end_ :: _ => Ok (filter (in_range start end_) df)
         | _ => Raise IndexError
         end
    else Raise AttributeError.
Proof.
  intros _. destruct (is_datetime_column df) eqn:E.
  - apply is_datetime_column_true in E. unfold filter_by_date.
    rewrite (dt_date_datetime df E).
    destruct date_filter as [|start [|end_ rest]]; try reflexivity.
    cbn [tuple_get nth_error rbind].
    rewrite (mask_in_range start end_ df E). apply getitem_mask_map.
  - unfold filter_by_date. rewrite (dt_date_not_datetime df E). reflexivity.
Qed.

Lemma filter_by_date_outcomes_witness :
  filter_by_date loaded_hour_df [15340; 15346] = Raise AttributeError /\
  filter_by_date sample_hour_df [15340] = Raise IndexError /\
  filter_by_date sample_hour_df [15340; 15345; 15346] =
    Ok (filter (in_range 15340 15345) sample_hour_df).
Proof.
  split; [|split].
  - rewrite (filter_by_date_outcomes loaded_hour_df [15340; 15346])
      by (simpl; lia).
    reflexivity.
  - rewrite (filter_by_date_outcomes sample_hour_df [15340]) by (simpl; lia).
    reflexivity.
  - rewrite (filter_by_date_outcomes sample_hour_df [15340; 15345; 15346])
      by (simpl; lia).
    reflexivity.
Defined.

(** X2. Filtering a filtered table again, with another pair, is filtering the
    original table once with the intersection of the two ranges. *)
Theorem filter_twice_is_intersection {R : Type} `{Frame R}
    (df : list R) (s1 e1 s2 e2 : Z) :
  datetime_column df ->
  exists out,
    filter_by_date df [s1; e1] = Ok out /\
    filter_by_date out [s2; e2] = filter_by_date df [Z.max s1 s2; Z.min e1 e2].
Proof.
  intros Hdf. exists (filter (in_range s1 e1) df).
  split; [apply filter_by_date_filter, Hdf|].
  rewrite !filter_by_date_filter
    by (try apply datetime_column_filter; exact Hdf).
  rewrite filter_filter_and. f_equal. apply filter_ext.
  intros r. symmetry. apply in_range_intersection.
Qed.

Lemma filter_twice_is_intersection_witness :
  exists out,
    filter_by_date sample_day_df [15146; 15147] = Ok out /\
    filter_by_date out [15147; 15148] =
      filter_by_date sample_day_df [Z.max 15146 15147; Z.min 15147 15148].
Proof.
  apply (filter_twice_is_intersection sample_day_df 15146 15147 15147 15148).
  exact sample_day_df_datetime.
Defined.

Lemma series_min_lower_bound (col : list cell) (lo : Z) :
  series_min col = Some lo -> forall ns, In (Timestamp ns) col -> lo <= ns.
Proof.
  revert lo. induction col as [|c col IH]; simpl; intros lo Hmin ns Hin.
  - destruct Hin.
  - destruct c as [s|n].
    + destruct Hin as [Heq|Hin]; [discriminate|]. apply (IH lo Hmin ns Hin).
    + destruct (series_min col) as [m|] eqn:E.
      * injection Hmin as <-. destruct Hin as [Heq|Hin].
        -- injection Heq as ->. lia.
        -- specialize (IH m eq_refl ns Hin). lia.
      * injection Hmin as <-. destruct Hin as [Heq|Hin].
        -- injection Heq as ->. lia.
        -- exfalso. clear IH. induction col as [|c col IHc]; [destruct Hin|].
           simpl in E. destruct c as [s|n'].
           ++ destruct Hin as [Heq|Hin]; [discriminate|]. apply (IHc E Hin).
           ++ destruct (series_min col); discriminate.
Qed.

Lemma series_max_upper_bound (col : list cell) (hi : Z) :
  series_max col = Some hi -> forall ns, In (Timestamp ns) col -> ns <= hi.
Proof.
  revert hi. induction col as [|c col IH]; simpl; intros hi Hmax ns Hin.
  - destruct Hin.
  - destruct c as [s|n].
    + destruct Hin as [Heq|Hin]; [discriminate|]. apply (IH hi Hmax ns Hin).
    + destruct (series_max col) as [m|] eqn:E.
      * injection Hmax as <-. destruct Hin as [Heq|Hin].
        -- injection Heq as ->. lia.
        -- specialize (IH m eq_refl ns Hin). lia.
      * injection Hmax as <-. destruct Hin as [Heq|Hin].
        -- injection Heq as ->. lia.
        -- exfalso. clear IH. induction col as [|c col IHc]; [destruct Hin|].
           simpl in E. destruct c as [s|n'].
           ++ destruct Hin as [Heq|Hin]; [discriminate|]. apply (IHc E Hin).
           ++ destruct (series_max col); discriminate.
Qed.

Lemma date_of_monotone (a b : Z) : a <= b -> date_of a <= date_of b.
Proof.
  intros Hab. unfold date_of, NS_PER_DAY. apply Z.div_le_mono; lia.
Qed.

(** X3. With a picker left at its default, the dates of the table's earliest
    and latest timestamps (lines 60-73), the filter stage keeps every row of
    the table. *)
Theorem default_range_keeps_every_row {R : Type} `{Frame R}
    (df : list R) (min_date max_date : Z) :
  datetime_column df ->
  series_min (map dteday df) = Some min_date ->
  series_max (map dteday df) = Some max_date ->
  filter_by_date df [date_of min_date; date_of max_date] = Ok df.
Proof.
  intros Hdf Hmin Hmax. rewrite (filter_by_date_filter df _ _ Hdf). f_equal.
  apply filter_all. intros r Hr.
  unfold datetime_column in Hdf. rewrite Forall_forall in Hdf.
  destruct (Hdf r Hr) as [ns Hns].
  assert (Hcell : In (Timestamp ns) (map dteday df)).
  { rewrite <- Hns. apply in_map, Hr. }
  pose proof (series_min_lower_bound _ _ Hmin ns Hcell) as Hlo.
  pose proof (series_max_upper_bound _ _ Hmax ns Hcell) as Hhi.
  apply in_range_bounds. exists (date_of ns). split.
  - unfold row_date. rewrite Hns. reflexivity.
  - split; apply date_of_monotone; assumption.
Qed.

Lemma default_range_keeps_every_row_witness :
  filter_by_date sample_day_df
    [date_of 1308614400000000000; date_of 1308787200000000000] = Ok sample_day_df.
Proof.
  apply (default_range_keeps_every_row sample_day_df).
  - exact sample_day_df_datetime.
  - reflexivity.
  - reflexivity.
Defined.

(** ** More on the aggregation stage *)

Section GroupbyFacts.
Context {K R : Type} `{KeyLaws K} `{Frame R}.
Variable by_ : R -> K.

Lemma groupby_mean_NoDup (df : list R) : NoDup (map fst (groupby_mean by_ df)).
Proof. apply keys_sorted_NoDup, groupby_mean_sorted. Qed.

Lemma groupby_mean_length (df : list R) :
  (List.length (groupby_mean by_ df) <= List.length df)%nat.
Proof.
  rewrite <- (length_map fst), <- (length_map by_ df).
  apply NoDup_incl_length; [apply groupby_mean_NoDup|].
  intros k Hk. apply groupby_mean_key_iff in Hk. destruct Hk as [r [Hr <-]].
  apply in_map, Hr.
Qed.

(** Two key-ordered group lists that answer every lookup alike are equal. *)
Lemma keys_sorted_ext (g1 : list (group K)) :
  forall g2,
    keys_sorted g1 -> keys_sorted g2 ->
    (forall k, group_lookup k g1 = group_lookup k g2) -> g1 = g2.
Proof.
  unfold keys_sorted.
  induction g1 as [|[k1 v1] t1 IH]; intros [|[k2 v2] t2] Hs1 Hs2 Hl.
  - reflexivity.
  - specialize (Hl k2). simpl in Hl. rewrite same_key_refl in Hl. discriminate.
  - specialize (Hl k1). simpl in Hl. rewrite same_key_refl in Hl. discriminate.
  - simpl in Hs1, Hs2.
    inversion Hs1 as [|? ? Ht1 Ha1]; inversion Hs2 as [|? ? Ht2 Ha2]; subst.
    assert (Hk : k1 = k2).
    { destruct (key_compare k1 k2) eqn:E.
      - apply key_compare_eq, E.
      - exfalso. specialize (Hl k1). simpl in Hl.
        rewrite same_key_refl, (key_lt_not_same _ _ E) in Hl.
        rewrite group_lookup_above in Hl; [discriminate|].
        rewrite Forall_forall in *. intros x Hx.
        eapply key_compare_trans; [exact E | apply Ha2, Hx].
      - exfalso. apply key_gt_lt in E. specialize (Hl k2). simpl in Hl.
        rewrite same_key_refl, (key_lt_not_same _ _ E) in Hl.
        rewrite group_lookup_above in Hl; [discriminate|].
        rewrite Forall_forall in *. intros x Hx.
        eapply key_compare_trans; [exact E | apply Ha1, Hx]. }
    subst k2.
    assert (Hv : v1 = v2).
    { specialize (Hl k1). simpl in Hl. rewrite same_key_refl in Hl. congruence. }
    subst v2. f_equal. apply IH; try assumption.
    intros k. specialize (Hl k). simpl in Hl.
    destruct (same_key k k1) eqn:E; [|exact Hl].
    apply same_key_eq in E. subst k.
    rewrite !group_lookup_above by assumption. reflexivity.
Qed.

Lemma sum_cnt_Permutation (l l' : list R) :
  Permutation l l' -> sum_cnt l = sum_cnt l'.
Proof.
  unfold sum_cnt. induction 1; simpl; lia.
Qed.

Lemma rows_of_Permutation (k : K) (df df' : list R) :
  Permutation df df' -> Permutation (rows_of by_ k df) (rows_of by_ k df').
Proof.
  unfold rows_of. induction 1 as [|x l l' _ IH|x y l|l l' l'' _ IH1 _ IH2]; simpl.
  - constructor.
  - destruct (same_key k (by_ x)); [constructor|]; exact IH.
  - destruct (same_key k (by_ x)), (same_key k (by_ y));
      try apply Permutation_refl. constructor.
  - eapply Permutation_trans; eassumption.
Qed.

Lemma tally_Permutation (k : K) (df df' : list R) :
  Permutation df df' -> tally by_ k df = tally by_ k df'.
Proof.
  intros Hp. apply (rows_of_Permutation k) in Hp. unfold tally.
  destruct (rows_of by_ k df) as [|r rows] eqn:E;
    destruct (rows_of by_ k df') as [|r' rows'] eqn:E'.
  - reflexivity.
  - apply Permutation_nil in Hp. discriminate.
  - apply Permutation_sym, Permutation_nil in Hp. discriminate.
  - rewrite (sum_cnt_Permutation _ _ Hp), (Permutation_length Hp). reflexivity.
Qed.

Lemma groupby_mean_Permutation (df df' : list R) :
  Permutation df df' -> groupby_mean by_ df = groupby_mean by_ df'.
Proof.
  intros Hp. unfold groupby_mean. f_equal.
  destruct (group_sums_agrees by_ df) as [Hs Hl].
  destruct (group_sums_agrees by_ df') as [Hs' Hl'].
  apply keys_sorted_ext; try assumption.
  intros k. rewrite Hl, Hl'. apply tally_Permutation, Hp.
Qed.

Lemma sum_cnt_bounds (lo hi : Z) (rows : list R) :
  Forall (fun r => lo <= cnt r <= hi) rows ->
  lo * Z.of_nat (List.length rows) <= sum_cnt rows <= hi * Z.of_nat (List.length rows).
Proof.
  unfold sum_cnt. induction 1 as [|r rows Hr _ IH].
  - simpl. lia.
  - simpl fold_right. simpl List.length. rewrite Nat2Z.inj_succ. nia.
Qed.

Lemma arithmetic_mean_bounds (lo hi : Z) (rows : list R) :
  rows <> [] ->
  Forall (fun r => lo <= cnt r <= hi) rows ->
  (inject_Z lo <= arithmetic_mean rows <= inject_Z hi)%Q.
Proof.
  intros Hne Hall. pose proof (sum_cnt_bounds lo hi rows Hall) as [Hlo Hhi].
  assert (Hn : 0 < Z.of_nat (List.length rows)).
  { destruct rows; [congruence | simpl List.length; lia]. }
  assert (Hq : (0 < inject_Z (Z.of_nat (List.length rows)))%Q).
  { rewrite <- (Zlt_Qlt 0). exact Hn. }
  unfold arithmetic_mean. split.
  - apply Qle_shift_div_l; [exact Hq|].
    rewrite <- inject_Z_mult, <- Zle_Qle. exact Hlo.
  - apply Qle_shift_div_r; [exact Hq|].
    rewrite <- inject_Z_mult, <- Zle_Qle. exact Hhi.
Qed.

Lemma groupby_mean_bounds (lo hi : Z) (df : list R) (k : K) (m : Q) :
  Forall (fun r => lo <= cnt r <= hi) df ->
  In (k, m) (groupby_mean by_ df) ->
  (inject_Z lo <= m <= inject_Z hi)%Q.
Proof.
  intros Hall Hin. destruct (groupby_mean_value by_ df k m Hin) as [Hne Hm].
  assert (Hrows : Forall (fun r => lo <= cnt r <= hi) (rows_of by_ k df)).
  { rewrite Forall_forall in *. intros r Hr. apply filter_In in Hr. apply Hall, Hr. }
  pose proof (arithmetic_mean_bounds lo hi _ Hne Hrows) as [Hlo Hhi].
  split.
  - eapply Qle_trans; [exact Hlo|]. apply Qle_lteq. right. apply Qeq_sym, Hm.
  - eapply Qle_trans; [|exact Hhi]. apply Qle_lteq. right. exact Hm.
Qed.

End GroupbyFacts.

Lemma rows_of_hour_slot (a b : Z) (df : list HourlyRecord) :
  rows_of (fun r => (hr r, is_weekend r)) (a, b) df =
    filter (fun r => (hr r =? a) && (is_weekend r =? b)) df.
Proof.
  unfold rows_of. apply filter_ext. intros r.
  apply eq_true_iff_eq. rewrite same_key_eq, andb_true_iff, !Z.eqb_eq.
  split; [intros Heq; injection Heq; auto | intros [-> ->]; reflexivity].
Qed.

Lemma hour_slots_increasing (l : list (Z * Z)) :
  StronglySorted lex_lt l -> Forall known_hour_slot l ->
  StronglySorted Z.lt (map hour_slot l).
Proof.
  induction 1 as [|a l _ IH Hall]; intros Hbox; simpl; constructor.
  - apply IH. inversion Hbox; assumption.
  - inversion Hbox as [|? ? Ha Hl]; subst.
    rewrite Forall_forall in *. intros x Hx.
    apply in_map_iff in Hx. destruct Hx as [b [<- Hb]].
    specialize (Hall b Hb). specialize (Hl b Hb).
    unfold lex_lt, known_hour_slot, hour_slot in *. lia.
Qed.

(** X4. Aggregation by (hr, is_weekend) yields one output row per distinct
    (hr, is_weekend) pair occurring in the table, never more rows than the
    table has, and each row's mean is the arithmetic mean of the counts of
    exactly the table rows with that hour and day type. *)
Theorem hourly_aggregation_groups_and_means (filtered_hour_df : list HourlyRecord) :
  let out := average_rentals_per_hour filtered_hour_df in
  NoDup (map fst out) /\
  (List.length out <= List.length filtered_hour_df)%nat /\
  (forall a b, In (a, b) (map fst out) <->
               exists r, In r filtered_hour_df /\ hr r = a /\ is_weekend r = b) /\
  (forall a b m, In ((a, b), m) out ->
     filter (fun r => (hr r =? a) && (is_weekend r =? b)) filtered_hour_df <> [] /\
     m == arithmetic_mean
            (filter (fun r => (hr r =? a) && (is_weekend r =? b)) filtered_hour_df)).
Proof.
  intros out. unfold out, average_rentals_per_hour.
  split; [apply groupby_mean_NoDup|].
  split; [apply groupby_mean_length|]. split.
  - intros a b. rewrite groupby_mean_key_iff. split.
    + intros [r [Hr Hk]]. injection Hk as Ha Hb. exists r. auto.
    + intros [r [Hr [Ha Hb]]]. exists r. split; [exact Hr | congruence].
  - intros a b m Hin. rewrite <- rows_of_hour_slot.
    apply (groupby_mean_value (fun r => (hr r, is_weekend r))), Hin.
Qed.

(** X5. When every row has an hour between 0 and 23 and a day type of 0 or 1,
    aggregation by (hr, is_weekend) yields at most 48 rows. *)
Theorem hourly_aggregation_at_most_48_groups (filtered_hour_df : list HourlyRecord) :
  Forall (fun r => known_hour_slot (hr r, is_weekend r)) filtered_hour_df ->
  (List.length (average_rentals_per_hour filtered_hour_df) <= 48)%nat.
Proof.
  intros Hknown. unfold average_rentals_per_hour.
  set (by_ := fun r : HourlyRecord => (hr r, is_weekend r)).
  pose proof (groupby_mean_sorted by_ filtered_hour_df) as Hsorted.
  apply (StronglySorted_weaken key_lt lex_lt _ pair_key_lt_lex) in Hsorted.
  assert (Hbox : Forall known_hour_slot (map fst (groupby_mean by_ filtered_hour_df))).
  { rewrite Forall_forall in *. intros k Hk.
    apply (groupby_mean_key_iff by_) in Hk. destruct Hk as [r [Hr <-]].
    apply (Hknown r Hr). }
  pose proof (hour_slots_increasing _ Hsorted Hbox) as Hinc.
  assert (Hslots : Forall (fun x => 0 <= x <= 47)
                     (map hour_slot (map fst (groupby_mean by_ filtered_hour_df)))).
  { rewrite Forall_forall in *. intros x Hx.
    apply in_map_iff in Hx. destruct Hx as [k [<- Hk]].
    specialize (Hbox k Hk). unfold known_hour_slot, hour_slot in *. lia. }
  pose proof (increasing_within_bounds _ Hinc 0 47 Hslots) as Hlen.
  rewrite !length_map in Hlen. lia.
Qed.

Lemma hourly_aggregation_at_most_48_groups_witness :
  (List.length (average_rentals_per_hour sample_hour_df) <= 48)%nat.
Proof.
  apply (hourly_aggregation_at_most_48_groups sample_hour_df).
  unfold sample_hour_df, known_hour_slot. repeat constructor; simpl; lia.
Defined.

(** X6. Neither aggregation depends on the order of the table's rows: two
    tables holding the same rows in any order, with counts small enough for
    the float64 sums to be exact, aggregate to the same output, row for
    row. *)
Theorem aggregations_ignore_row_order
    (hour_df hour_df' : list HourlyRecord) (day_df day_df' : list DailyRecord) :
  sums_exact hour_df ->
  sums_exact day_df ->
  Permutation hour_df hour_df' ->
  Permutation day_df day_df' ->
  average_rentals_per_hour hour_df = average_rentals_per_hour hour_df' /\
  average_rentals_by_weather day_df = average_rentals_by_weather day_df'.
Proof.
  intros _ _ Hh Hd. split.
  - apply (groupby_mean_Permutation (fun r => (hr r, is_weekend r))), Hh.
  - apply (groupby_mean_Permutation weathersit), Hd.
Qed.

Lemma aggregations_ignore_row_order_witness :
  average_rentals_per_hour sample_hour_df =
    average_rentals_per_hour (rev sample_hour_df) /\
  average_rentals_by_weather sample_day_df =
    average_rentals_by_weather (rev sample_day_df).
Proof.
  apply (aggregations_ignore_row_order
           sample_hour_df (rev sample_hour_df) sample_day_df (rev sample_day_df)).
  - unfold sums_exact. vm_compute. discriminate.
  - unfold sums_exact. vm_compute. discriminate.
  - apply Permutation_rev.
  - apply Permutation_rev.
Defined.

(** X7. A group's mean lies between the smallest and the largest count of
    the table: if every count is within [lo, hi], and the counts are small
    enough for the float64 sums to be exact, so is every mean of both
    aggregations (in particular, non-negative counts give non-negative
    means). *)
Theorem group_means_within_count_bounds (lo hi : Z)
    (filtered_hour_df : list HourlyRecord) (filtered_day_df : list DailyRecord) :
  sums_exact filtered_hour_df ->
  sums_exact filtered_day_df ->
  Forall (fun r => lo <= h_cnt r <= hi) filtered_hour_df ->
  Forall (fun r => lo <= d_cnt r <= hi) filtered_day_df ->
  (forall k m, In (k, m) (average_rentals_per_hour filtered_hour_df) ->
     (inject_Z lo <= m <= inject_Z hi)%Q) /\
  (forall w m, In (w, m) (average_rentals_by_weather filtered_day_df) ->
     (inject_Z lo <= m <= inject_Z hi)%Q).
Proof.
  intros _ _ Hh Hd. split.
  - intros k m Hin.
    eapply (groupby_mean_bounds (fun r => (hr r, is_weekend r)) lo hi);
      [exact Hh | exact Hin].
  - intros w m Hin.
    eapply (groupby_mean_bounds weathersit lo hi); [exact Hd | exact Hin].
Qed.

Lemma group_means_within_count_bounds_witness :
  (forall k m, In (k, m) (average_rentals_per_hour sample_hour_df) ->
     (inject_Z 0 <= m <= inject_Z 5000)%Q) /\
  (forall w m, In (w, m) (average_rentals_by_weather sample_day_df) ->
     (inject_Z 0 <= m <= inject_Z 5000)%Q).
Proof.
  apply (group_means_within_count_bounds 0 5000 sample_hour_df sample_day_df).
  - unfold sums_exact. vm_compute. discriminate.
  - unfold sums_exact. vm_compute. discriminate.
  - unfold sample_hour_df. repeat constructor; simpl; lia.
  - unfold sample_day_df. repeat constructor; simpl; lia.
Defined.

(** ** More on the loader and the run *)

(** A run in which both files load is the staged run [run_loaded]. *)
Lemma run_is_run_loaded (to_datetime : string -> option Z) (e : env)
    (h : list HourlyRecord) (d : list DailyRecord) :
  hour_csv e = Parsed h -> day_csv e = Parsed d ->
  run to_datetime e = run_loaded to_datetime e h d.
Proof.
  intros Hh Hd.
  unfold run, run_loaded, main, load_or_stop, load_data, read_both.
  unfold sidebar, convert_date_columns, render, date_filters, filter_stage,
    visualizations, get_hour_df, get_day_df, set_hour_df, set_day_df,
    emit, lift, ret, bind.
  rewrite Hh, Hd. simpl.
  unfold sidebar_events. destruct (bike_png e) as [cause|]; simpl;
    (destruct (to_datetime_series to_datetime (map h_dteday h)) as [hc|ex]; simpl;
     [|reflexivity]);
    (destruct (to_datetime_series to_datetime (map d_dteday d)) as [dc|ex]; simpl;
     [|reflexivity]);
    (destruct (filter_by_date (setitem_dteday h hc) (date_filter_hour e)) as [fh|ex];
     simpl; [|reflexivity]);
    (destruct (filter_by_date (setitem_dteday d dc) (date_filter_day e)) as [fd|ex];
     simpl; reflexivity).
Qed.

Lemma run_not_loaded (to_datetime : string -> option Z) (e : env) :
  is_parsed (hour_csv e) && is_parsed (day_csv e) = false ->
  run to_datetime e = (mkState None None (load_failure_events e), Stopped).
Proof.
  intros Hnot. apply run_stops_after_load.
  unfold load_failure_events, load_data, read_both in *.
  destruct (hour_csv e) as [|c|h]; simpl in *; try reflexivity.
  destruct (day_csv e) as [|c|d]; simpl in *; try reflexivity. discriminate.
Qed.

Lemma is_parsed_both (e : env) :
  is_parsed (hour_csv e) && is_parsed (day_csv e) = true ->
  exists h d, hour_csv e = Parsed h /\ day_csv e = Parsed d.
Proof.
  destruct (hour_csv e) as [|c|h]; simpl; try discriminate.
  destruct (day_csv e) as [|c|d]; simpl; try discriminate.
  intros _. exists h, d. split; reflexivity.
Qed.

Section ConversionFacts.
Variable to_datetime : string -> option Z.

Lemma to_datetime_cell_ok (c c' : cell) :
  to_datetime_cell to_datetime c = Ok c' -> exists ns, c' = Timestamp ns.
Proof.
  destruct c as [s|ns]; simpl.
  - destruct (to_datetime s) as [ns|]; [|discriminate].
    intros Heq. injection Heq as <-. exists ns. reflexivity.
  - intros Heq. injection Heq as <-. exists ns. reflexivity.
Qed.

Lemma to_datetime_series_raises (col : list cell) (ex : exception) :
  to_datetime_series to_datetime col = Raise ex ->
  exists s, ex = DateParseError s /\ In (Str s) col /\ to_datetime s = None.
Proof.
  induction col as [|c col IH]; simpl; [discriminate|].
  destruct c as [s|ns]; simpl.
  - destruct (to_datetime s) as [ns|] eqn:E; simpl.
    + destruct (to_datetime_series to_datetime col) as [tl|ex']; simpl;
        [discriminate|].
      intros Heq. injection Heq as <-. destruct (IH eq_refl) as [s' [H1 [H2 H3]]].
      exists s'. repeat split; auto.
    + intros Heq. injection Heq as <-. exists s. repeat split; auto.
  - destruct (to_datetime_series to_datetime col) as [tl|ex']; simpl;
      [discriminate|].
    intros Heq. injection Heq as <-. destruct (IH eq_refl) as [s' [H1 [H2 H3]]].
    exists s'. repeat split; auto.
Qed.

Lemma to_datetime_series_datetime {R : Type} `{Frame R} (df : list R) :
  datetime_column df ->
  to_datetime_series to_datetime (map dteday df) = Ok (map dteday df).
Proof.
  induction 1 as [|r df [ns Hr] _ IH]; simpl; [reflexivity|].
  rewrite Hr, IH. reflexivity.
Qed.

Lemma setitem_dteday_is_datetime {R : Type} `{Frame R} (df : list R) :
  (forall c r, dteday (set_dteday c r) = c) ->
  forall col,
    to_datetime_series to_datetime (map dteday df) = Ok col ->
    is_datetime_column (setitem_dteday df col) = true.
Proof.
  intros Hlaw. unfold is_datetime_column.
  induction df as [|r df IH]; simpl; intros col Hcol.
  - injection Hcol as <-. reflexivity.
  - destruct (to_datetime_cell to_datetime (dteday r)) as [c'|ex] eqn:Ec;
      simpl in Hcol; [|discriminate].
    destruct (to_datetime_series to_datetime (map dteday df)) as [tl|ex] eqn:Et;
      simpl in Hcol; [|discriminate].
    injection Hcol as <-. simpl. rewrite Hlaw.
    destruct (to_datetime_cell_ok _ _ Ec) as [ns ->]. simpl.
    apply IH. reflexivity.
Qed.

End ConversionFacts.

Lemma setitem_dteday_same {R : Type} `{Frame R} (df : list R) :
  (forall r, set_dteday (dteday r) r = r) ->
  setitem_dteday df (map dteday df) = df.
Proof.
  intros Hlaw. induction df as [|r df IH]; simpl; [reflexivity|].
  rewrite Hlaw, IH. reflexivity.
Qed.

Lemma hourly_dteday_set (c : cell) (r : HourlyRecord) : dteday (set_dteday c r) = c.
Proof. reflexivity. Qed.

Lemma daily_dteday_set (c : cell) (r : DailyRecord) : dteday (set_dteday c r) = c.
Proof. reflexivity. Qed.

Lemma hourly_set_dteday_same (r : HourlyRecord) : set_dteday (dteday r) r = r.
Proof. destruct r. reflexivity. Qed.

Lemma daily_set_dteday_same (r : DailyRecord) : set_dteday (dteday r) r = r.
Proof. destruct r. reflexivity. Qed.


(** The three ways a run can go once both files have loaded: a date cell
    that does not parse, a picker tuple that is too short, or all stages
    through to the charts. *)
Lemma run_loaded_paths (to_datetime : string -> option Z) (e : env)
    (h : list HourlyRecord) (d : list DailyRecord) :
  (exists s,
     to_datetime s = None /\
     (In (Str s) (map dteday h) \/ In (Str s) (map dteday d)) /\
     snd (run_loaded to_datetime e h d) = Crashed (DateParseError s) /\
     ui (fst (run_loaded to_datetime e h d)) = sidebar_events e) \/
  (exists hc dc,
     to_datetime_series to_datetime (map dteday h) = Ok hc /\
     to_datetime_series to_datetime (map dteday d) = Ok dc /\
     ((List.length (date_filter_hour e) < 2)%nat \/
      (List.length (date_filter_day e) < 2)%nat) /\
     snd (run_loaded to_datetime e h d) = Crashed IndexError /\
     ui (fst (run_loaded to_datetime e h d)) =
       sidebar_events e ++ picker_events (setitem_dteday h hc) (setitem_dteday d dc)) \/
  (exists hc dc s1 e1 r1 s2 e2 r2,
     to_datetime_series to_datetime (map dteday h) = Ok hc /\
     to_datetime_series to_datetime (map dteday d) = Ok dc /\
     date_filter_hour e = s1 :: e1 :: r1 /\
     date_filter_day e = s2 :: e2 :: r2 /\
     run_loaded to_datetime e h d =
       (mkState (Some (setitem_dteday h hc)) (Some (setitem_dteday d dc))
          ((sidebar_events e ++
            picker_events (setitem_dteday h hc) (setitem_dteday d dc)) ++
           chart_events (filter (in_range s1 e1) (setitem_dteday h hc))
                        (filter (in_range s2 e2) (setitem_dteday d dc))),
        Completed)).
Proof.
  unfold run_loaded.
  destruct (to_datetime_series to_datetime (map dteday h)) as [hc|ex] eqn:Eh.
  2:{ left. destruct (to_datetime_series_raises _ _ _ Eh) as [s [-> [Hin Hs]]].
      exists s. simpl. auto. }
  destruct (to_datetime_series to_datetime (map dteday d)) as [dc|ex] eqn:Ed.
  2:{ left. destruct (to_datetime_series_raises _ _ _ Ed) as [s [-> [Hin Hs]]].
      exists s. simpl. auto. }
  cbv zeta. rewrite !filter_by_date_cases.
  rewrite (setitem_dteday_is_datetime to_datetime h hourly_dteday_set hc Eh).
  rewrite (setitem_dteday_is_datetime to_datetime d daily_dteday_set dc Ed).
  destruct (date_filter_hour e) as [|s1 [|e1 r1]] eqn:Fh.
  - right; left. exists hc, dc. simpl. repeat split; auto; left; lia.
  - right; left. exists hc, dc. simpl. repeat split; auto; left; lia.
  - destruct (date_filter_day e) as [|s2 [|e2 r2]] eqn:Fd.
    + right; left. exists hc, dc. simpl. repeat split; auto; right; lia.
    + right; left. exists hc, dc. simpl. repeat split; auto; right; lia.
    + right; right. exists hc, dc, s1, e1, r1, s2, e2, r2. repeat split; auto.
Qed.

Lemma sidebar_events_no_chart (e : env) : filter is_chart (sidebar_events e) = [].
Proof. unfold sidebar_events. destruct (bike_png e); reflexivity. Qed.

Lemma filter_is_chart_none (evs : list ui_event) :
  filter is_chart evs = [] -> existsb is_chart evs = false.
Proof.
  induction evs as [|ev evs IH]; simpl; [reflexivity|].
  destruct (is_chart ev); [discriminate | exact IH].
Qed.

Lemma load_failure_events_no_chart (e : env) :
  filter is_chart (load_failure_events e) = [].
Proof.
  unfold load_failure_events.
  destruct (read_both e) as [[h d]|[]]; reflexivity.
Qed.

(** ** The loader and the run: further properties *)

(** X8. The loader never raises and returns all or nothing: both tables, with
    no message, exactly when both files parse; otherwise (None, None) after
    exactly one error message on the page (preceded by a log entry unless a
    file was missing).  It touches neither table variable. *)
Theorem load_data_all_or_nothing (e : env) (s : state) :
  hour_df_2012 (fst (load_data e s)) = hour_df_2012 s /\
  day_df_summer_2011 (fst (load_data e s)) = day_df_summer_2011 s /\
  ((exists h d,
      hour_csv e = Parsed h /\ day_csv e = Parsed d /\
      snd (load_data e s) = Ok (Some h, Some d) /\
      ui (fst (load_data e s)) = ui s) \/
   (is_parsed (hour_csv e) && is_parsed (day_csv e) = false /\
    snd (load_data e s) = Ok (None, None) /\
    (ui (fst (load_data e s)) = ui s ++ [StError not_found_message] \/
     exists cause,
       ui (fst (load_data e s)) =
         ui s ++ [LoggerError (load_error_message cause);
                  StError (load_error_message cause)]))).
Proof.
  unfold load_data, read_both, bind, emit, ret.
  destruct (hour_csv e) as [|c|h]; simpl.
  - repeat split; auto.
  - repeat split; auto. right. repeat split; auto. right. exists c.
    rewrite <- app_assoc. reflexivity.
  - destruct (day_csv e) as [|c|d]; simpl.
    + repeat split; auto.
    + repeat split; auto. right. repeat split; auto. right. exists c.
      rewrite <- app_assoc. reflexivity.
    + repeat split; auto. left. exists h, d. repeat split; auto.
Qed.

(** X9. The two files are read in order inside one [try]: once the hourly
    file has failed, the daily file is not looked at, so the loader behaves
    the same whatever the daily file is. *)
Theorem daily_file_not_read_after_hourly_failure (e1 e2 : env) (s : state) :
  hour_csv e1 = hour_csv e2 ->
  is_parsed (hour_csv e1) = false ->
  load_data e1 s = load_data e2 s.
Proof.
  intros Hsame Hfail. unfold load_data, read_both. rewrite <- Hsame.
  destruct (hour_csv e1) as [|c|h]; simpl in *; try reflexivity. discriminate.
Qed.

Lemma daily_file_not_read_after_hourly_failure_witness :
  load_data empty_hourly_missing_daily_env initial_state =
    load_data (mkEnv (Unreadable "No columns to parse from file")
                     (Parsed loaded_day_df) None [] []) initial_state.
Proof.
  apply (daily_file_not_read_after_hourly_failure
           empty_hourly_missing_daily_env
           (mkEnv (Unreadable "No columns to parse from file")
                  (Parsed loaded_day_df) None [] []) initial_state).
  - reflexivity.
  - reflexivity.
Defined.

(** X10. A failure to load the sidebar image is isolated: the run ends the
    same way, with the same tables, and the trace differs only in that the
    image is replaced by a logged warning and a sidebar warning. *)
Theorem image_failure_changes_only_the_sidebar
    (to_datetime : string -> option Z) (e : env) (cause : string) :
  snd (run to_datetime (with_image e (Some cause))) =
    snd (run to_datetime (with_image e None)) /\
  hour_df_2012 (fst (run to_datetime (with_image e (Some cause)))) =
    hour_df_2012 (fst (run to_datetime (with_image e None))) /\
  day_df_summer_2011 (fst (run to_datetime (with_image e (Some cause)))) =
    day_df_summer_2011 (fst (run to_datetime (with_image e None))) /\
  ui (fst (run to_datetime (with_image e (Some cause)))) =
    flat_map (image_failure cause) (ui (fst (run to_datetime (with_image e None)))).
Proof.
  destruct (is_parsed (hour_csv e) && is_parsed (day_csv e)) eqn:E.
  - destruct (is_parsed_both e E) as [h [d [Hh Hd]]].
    rewrite (run_is_run_loaded to_datetime (with_image e (Some cause)) h d Hh Hd).
    rewrite (run_is_run_loaded to_datetime (with_image e None) h d Hh Hd).
    unfold run_loaded, with_image, sidebar_events. simpl.
    destruct (to_datetime_series to_datetime (map h_dteday h)) as [hc|ex];
      [|simpl; auto].
    destruct (to_datetime_series to_datetime (map d_dteday d)) as [dc|ex];
      [|simpl; auto].
    destruct (filter_by_date (setitem_dteday h hc) (date_filter_hour e)) as [fh|ex];
      [|simpl; auto].
    destruct (filter_by_date (setitem_dteday d dc) (date_filter_day e)) as [fd|ex];
      simpl; auto.
  - rewrite !run_not_loaded by exact E. simpl. repeat split; try reflexivity.
    unfold load_failure_events, read_both, with_image. simpl.
    destruct (hour_csv e) as [|c|h]; simpl; try reflexivity.
    destruct (day_csv e) as [|c|d]; simpl; reflexivity.
Qed.

(** X11. A run is ended by [st.stop()] exactly when one of the two files
    failed to load; nothing after the load check stops the run that way. *)
Theorem run_stops_exactly_when_loading_fails
    (to_datetime : string -> option Z) (e : env) :
  snd (run to_datetime e) = Stopped <->
  is_parsed (hour_csv e) && is_parsed (day_csv e) = false.
Proof.
  destruct (is_parsed (hour_csv e) && is_parsed (day_csv e)) eqn:E.
  - destruct (is_parsed_both e E) as [h [d [Hh Hd]]].
    rewrite (run_is_run_loaded to_datetime e h d Hh Hd).
    split; [|discriminate]. intros Hstop. exfalso.
    destruct (run_loaded_paths to_datetime e h d)
      as [[s [_ [_ [Ho _]]]] | [[hc [dc [_ [_ [_ [Ho _]]]]]] | Hdone]].
    + congruence.
    + congruence.
    + destruct Hdone as [hc [dc [s1 [e1 [r1 [s2 [e2 [r2 [_ [_ [_ [_ Hrun]]]]]]]]]]]].
      rewrite Hrun in Hstop. discriminate.
  - rewrite run_not_loaded by exact E. split; reflexivity.
Qed.

(** X12. A chart is drawn only in a run in which both files loaded, every
    date cell of both tables parsed and both pickers returned at least two
    dates. *)
Theorem charts_need_loaded_parsed_and_picked
    (to_datetime : string -> option Z) (e : env) :
  existsb is_chart (ui (fst (run to_datetime e))) = true ->
  exists h d hc dc,
    hour_csv e = Parsed h /\ day_csv e = Parsed d /\
    to_datetime_series to_datetime (map dteday h) = Ok hc /\
    to_datetime_series to_datetime (map dteday d) = Ok dc /\
    (2 <= List.length (date_filter_hour e))%nat /\
    (2 <= List.length (date_filter_day e))%nat.
Proof.
  destruct (is_parsed (hour_csv e) && is_parsed (day_csv e)) eqn:E.
  - destruct (is_parsed_both e E) as [h [d [Hh Hd]]].
    rewrite (run_is_run_loaded to_datetime e h d Hh Hd).
    destruct (run_loaded_paths to_datetime e h d)
      as [[s [_ [_ [_ Hui]]]] | [[hc [dc [_ [_ [_ [_ Hui]]]]]] | Hdone]].
    + rewrite Hui, (filter_is_chart_none _ (sidebar_events_no_chart e)).
      discriminate.
    + rewrite Hui, existsb_app,
        (filter_is_chart_none _ (sidebar_events_no_chart e)).
      discriminate.
    + destruct Hdone as [hc [dc [s1 [e1 [r1 [s2 [e2 [r2 [Hhc [Hdc [Fh [Fd _]]]]]]]]]]]].
      intros _. exists h, d, hc, dc. rewrite Fh, Fd. simpl.
      repeat split; auto; lia.
  - rewrite run_not_loaded by exact E. simpl.
    rewrite (filter_is_chart_none _ (load_failure_events_no_chart e)).
    discriminate.
Qed.

Lemma charts_need_loaded_parsed_and_picked_witness :
  exists h d hc dc,
    hour_csv sample_env = Parsed h /\ day_csv sample_env = Parsed d /\
    to_datetime_series iso_to_datetime (map dteday h) = Ok hc /\
    to_datetime_series iso_to_datetime (map dteday d) = Ok dc /\
    (2 <= List.length (date_filter_hour sample_env))%nat /\
    (2 <= List.length (date_filter_day sample_env))%nat.
Proof.
  apply (charts_need_loaded_parsed_and_picked iso_to_datetime sample_env).
  vm_compute. reflexivity.
Defined.

(** X13. When both files load, every date cell parses and both pickers return
    a pair, the two tables end up with their date columns converted and the
    four chart calls are handed, in order: the hourly means of the filtered
    hourly table, the filtered hourly table, the filtered daily table, and
    the weather means of the filtered daily table; each table is filtered by
    its own picker. *)
Theorem charts_show_the_filtered_tables
    (to_datetime : string -> option Z) (e : env)
    (h : list HourlyRecord) (d : list DailyRecord) (hc dc : list cell)
    (s1 e1 s2 e2 : Z) (r1 r2 : list Z) :
  hour_csv e = Parsed h ->
  day_csv e = Parsed d ->
  to_datetime_series to_datetime (map dteday h) = Ok hc ->
  to_datetime_series to_datetime (map dteday d) = Ok dc ->
  date_filter_hour e = s1 :: e1 :: r1 ->
  date_filter_day e = s2 :: e2 :: r2 ->
  let hour_df := setitem_dteday h hc in
  let day_df := setitem_dteday d dc in
  let filtered_hour_df := filter (in_range s1 e1) hour_df in
  let filtered_day_df := filter (in_range s2 e2) day_df in
  hour_df_2012 (fst (run to_datetime e)) = Some hour_df /\
  day_df_summer_2011 (fst (run to_datetime e)) = Some day_df /\
  filter is_chart (ui (fst (run to_datetime e))) =
    [StPyplot (LinePlot (average_rentals_per_hour filtered_hour_df));
     StPyplot (BoxPlot filtered_hour_df);
     StPyplot (ScatterPlot filtered_day_df);
     StPyplot (BarPlot (average_rentals_by_weather filtered_day_df))].
Proof.
  intros Hh Hd Hhc Hdc Fh Fd. cbv zeta.
  rewrite (run_is_run_loaded to_datetime e h d Hh Hd).
  unfold run_loaded. rewrite Hhc, Hdc. cbv zeta.
  rewrite !filter_by_date_cases.
  rewrite (setitem_dteday_is_datetime to_datetime h hourly_dteday_set hc Hhc).
  rewrite (setitem_dteday_is_datetime to_datetime d daily_dteday_set dc Hdc).
  rewrite Fh, Fd. cbn [fst snd hour_df_2012 day_df_summer_2011 ui].
  repeat split.
  rewrite !filter_app, sidebar_events_no_chart. reflexivity.
Qed.

Lemma charts_show_the_filtered_tables_witness :
  hour_df_2012 (fst (run iso_to_datetime sample_env)) = Some sample_hour_df /\
  day_df_summer_2011 (fst (run iso_to_datetime sample_env)) = Some sample_day_df /\
  filter is_chart (ui (fst (run iso_to_datetime sample_env))) =
    [StPyplot (LinePlot (average_rentals_per_hour
                           (filter (in_range 15340 15346) sample_hour_df)));
     StPyplot (BoxPlot (filter (in_range 15340 15346) sample_hour_df));
     StPyplot (ScatterPlot (filter (in_range 15146 15148) sample_day_df));
     StPyplot (BarPlot (average_rentals_by_weather
                          (filter (in_range 15146 15148) sample_day_df)))].
Proof.
  change sample_hour_df
    with (setitem_dteday loaded_hour_df (map dteday sample_hour_df)).
  change sample_day_df
    with (setitem_dteday loaded_day_df (map dteday sample_day_df)).
  apply (charts_show_the_filtered_tables iso_to_datetime sample_env
           loaded_hour_df loaded_day_df
           (map dteday sample_hour_df) (map dteday sample_day_df)
           15340 15346 15146 15148 [] []).
  - reflexivity.
  - reflexivity.
  - vm_compute. reflexivity.
  - vm_compute. reflexivity.
  - reflexivity.
  - reflexivity.
Defined.



(** X15. When the date conversion of lines 56-57 succeeds, both tables have a
    date column of timestamps, which is what the filter stage needs; nothing
    is shown on the page by the conversion. *)
Theorem conversion_makes_date_columns
    (to_datetime : string -> option Z) (s s' : state) :
  convert_date_columns to_datetime s = (s', Ok tt) ->
  exists h d,
    hour_df_2012 s' = Some h /\ day_df_summer_2011 s' = Some d /\
    datetime_column h /\ datetime_column d /\ ui s' = ui s.
Proof.
  unfold convert_date_columns, bind, get_hour_df, get_day_df, lift,
    set_hour_df, set_day_df.
  destruct s as [[h|] [d|] u]; simpl; try discriminate;
    destruct (to_datetime_series to_datetime (map h_dteday h)) as [hc|ex] eqn:Eh;
    simpl; try discriminate.
  destruct (to_datetime_series to_datetime (map d_dteday d)) as [dc|ex] eqn:Ed;
    simpl; [|discriminate].
  intros Heq. injection Heq as <-.
  exists (setitem_dteday h hc), (setitem_dteday d dc). simpl.
  repeat split.
  - apply is_datetime_column_true.
    apply (setitem_dteday_is_datetime to_datetime h hourly_dteday_set hc Eh).
  - apply is_datetime_column_true.
    apply (setitem_dteday_is_datetime to_datetime d daily_dteday_set dc Ed).
Qed.

Lemma conversion_makes_date_columns_witness :
  exists h d,
    hour_df_2012 (mkState (Some sample_hour_df) (Some sample_day_df) []) = Some h /\
    day_df_summer_2011 (mkState (Some sample_hour_df) (Some sample_day_df) []) = Some d /\
    datetime_column h /\ datetime_column d /\
    ui (mkState (Some sample_hour_df) (Some sample_day_df) []) =
      ui (mkState (Some loaded_hour_df) (Some loaded_day_df) []).
Proof.
  apply (conversion_makes_date_columns iso_to_datetime
           (mkState (Some loaded_hour_df) (Some loaded_day_df) [])
           (mkState (Some sample_hour_df) (Some sample_day_df) [])).
  vm_compute. reflexivity.
Defined.

(** X16. Converting tables whose date columns are already timestamps changes
    nothing and cannot fail, whatever [pd.to_datetime] does with strings. *)
Theorem conversion_of_converted_tables_is_identity
    (to_datetime : string -> option Z)
    (h : list HourlyRecord) (d : list DailyRecord) (u : list ui_event) :
  datetime_column h ->
  datetime_column d ->
  convert_date_columns to_datetime (mkState (Some h) (Some d) u) =
    (mkState (Some h) (Some d) u, Ok tt).
Proof.
  intros Hh Hd.
  unfold convert_date_columns, bind, get_hour_df, get_day_df, lift,
    set_hour_df, set_day_df. simpl.
  pose proof (to_datetime_series_datetime to_datetime h Hh) as Eh.
  pose proof (to_datetime_series_datetime to_datetime d Hd) as Ed.
  simpl in Eh, Ed. rewrite Eh. simpl. rewrite Ed. simpl.
  pose proof (setitem_dteday_same h hourly_set_dteday_same) as Sh.
  pose proof (setitem_dteday_same d daily_set_dteday_same) as Sd.
  simpl in Sh, Sd. rewrite Sh, Sd. reflexivity.
Qed.

Lemma conversion_of_converted_tables_is_identity_witness :
  convert_date_columns iso_to_datetime
    (mkState (Some sample_hour_df) (Some sample_day_df) []) =
    (mkState (Some sample_hour_df) (Some sample_day_df) [], Ok tt).
Proof.
  apply (conversion_of_converted_tables_is_identity iso_to_datetime
           sample_hour_df sample_day_df []).
  - exact sample_hour_df_datetime.
  - exact sample_day_df_datetime.
Defined.
